(** * receipt-assessment-backend: the gRPC record service and its GraphQL front

    A shallow embedding of the request handlers of the repository:

    - [Service]: the copy of the gRPC service that knows the
      [description] column (GetPrescription, GetPatient, GetAllPatients,
      UpdatePatientDetails, GetReference) and issues its own
      OFFSET/FETCH page query;
    - [Server]: [src/grpc/server.js], the variant without [description]
      whose GetAllPatients executes the stored procedure GetPatientsPaged;
    - [Bff]: the resolvers of [src/bff/bffserver.js].

    The handlers are asynchronous JavaScript talking to SQL Server through
    the [mssql] client.  They are embedded in a state-and-exception monad
    over a [World]: the committed database, the view of the open
    transaction, an oracle deciding which awaited database operation
    rejects, the log of the operations attempted and the list of callback
    invocations. *)

From Stdlib Require Import ZArith List String Bool Lia Permutation Sorted.
Import ListNotations.

Local Open Scope Z_scope.
Local Open Scope string_scope.
Local Open Scope list_scope.

Set Implicit Arguments.

(* ================================================================== *)
(** ** JavaScript values *)
(* ================================================================== *)

(** A request field is either absent ([None], JavaScript [undefined]) or
    carries a value.  [a || b] picks [b] when [a] is falsy: [undefined],
    the empty string and the number 0. *)
Module JS.

Definition truthy_str (x : option string) : bool :=
  match x with
  | Some s => negb (String.eqb s "")
  | None => false
  end.

Definition truthy_num (x : option Z) : bool :=
  match x with
  | Some n => negb (Z.eqb n 0)
  | None => false
  end.

(** [x || null] on a string field *)
Definition str_or_null (x : option string) : option string :=
  if truthy_str x then x else None.

(** [x || null] on a numeric field *)
Definition num_or_null (x : option Z) : option Z :=
  if truthy_num x then x else None.

(** [x || d] on a numeric field, [d] a number *)
Definition num_or (x : option Z) (d : Z) : Z :=
  match x with
  | Some n => if Z.eqb n 0 then d else n
  | None => d
  end.

End JS.

(* ================================================================== *)
(** ** The relational schema *)
(* ================================================================== *)

(** The four tables the queries of the source name.  A table is the list
    of its rows; key columns ([id], [reference_number] and the three
    foreign keys) hold values, every other column is nullable. *)

Record patient := mkPatient {
  p_id : Z;
  p_name : option string;
  p_age : option Z;
  p_gender : option string;
  p_contact : option string
}.

Record doctor := mkDoctor {
  d_id : Z;
  d_name : option string
}.

Record medicine := mkMedicine {
  m_id : Z;
  m_name : option string;
  m_description : option string
}.

Record prescription_reference := mkReference {
  reference_number : string;
  patient_id : Z;
  doctor_id : Z;
  medicine_id : Z
}.

Record DB := mkDB {
  patient_tbl : list patient;
  doctor_tbl : list doctor;
  medicine_tbl : list medicine;
  reference_tbl : list prescription_reference
}.

(** String comparison in SQL Server depends on the collation of the
    column: [sql_eqb column parameter] is the [=] of a WHERE clause,
    [sql_like pattern column] the LIKE operator and [sql_leb] the order
    used by ORDER BY. *)
Class Collation := {
  sql_eqb : string -> string -> bool;
  sql_like : string -> string -> bool;
  sql_leb : string -> string -> bool
}.

(** The binary collation: exact equality, [%s%] as substring search
    (for patterns without further wildcards) and the lexicographic
    order of the character codes. *)
Fixpoint is_substring (s t : string) : bool :=
  if String.prefix s t then true
  else match t with
       | EmptyString => false
       | String _ t' => is_substring s t'
       end.

Definition strip_percent (pat : string) : string :=
  String.substring 1 (String.length pat - 2) pat.

#[global] Instance binary_collation : Collation := {
  sql_eqb := String.eqb;
  sql_like := fun pat s => is_substring (strip_percent pat) s;
  sql_leb := String.leb
}.

(** [COALESCE(@param, column)] *)
Definition COALESCE {A} (param col : option A) : option A :=
  match param with
  | Some v => Some v
  | None => col
  end.

Module Sql.
Section Statements.
Context {C : Collation}.

(** [SELECT pr.patient_id, pr.doctor_id, pr.medicine_id
     FROM prescription_reference pr
     WHERE pr.reference_number = @reference_number] *)
Definition select_ids (ref : string) (db : DB) : list prescription_reference :=
  filter (fun pr => sql_eqb (reference_number pr) ref) (reference_tbl db).

(** [UPDATE patient SET name = COALESCE(@name, name), age = ...,
     gender = ..., contact = ... WHERE id = @patient_id] *)
Definition update_patient (pid : Z) (name : option string) (age : option Z)
    (gender contact : option string) (db : DB) : DB :=
  mkDB
    (map (fun p =>
            if Z.eqb (p_id p) pid
            then mkPatient (p_id p)
                   (COALESCE name (p_name p))
                   (COALESCE age (p_age p))
                   (COALESCE gender (p_gender p))
                   (COALESCE contact (p_contact p))
            else p)
         (patient_tbl db))
    (doctor_tbl db) (medicine_tbl db) (reference_tbl db).

(** [UPDATE doctor SET name = @doctor_name WHERE id = @doctor_id] *)
Definition update_doctor (did : Z) (name : option string) (db : DB) : DB :=
  mkDB
    (patient_tbl db)
    (map (fun d => if Z.eqb (d_id d) did then mkDoctor (d_id d) name else d)
         (doctor_tbl db))
    (medicine_tbl db) (reference_tbl db).

(** [UPDATE medicine SET name = COALESCE(@medicine_name, name),
     description = COALESCE(@description, description)
     WHERE id = @medicine_id] *)
Definition update_medicine (mid : Z) (name description : option string)
    (db : DB) : DB :=
  mkDB
    (patient_tbl db) (doctor_tbl db)
    (map (fun m =>
            if Z.eqb (m_id m) mid
            then mkMedicine (m_id m)
                   (COALESCE name (m_name m))
                   (COALESCE description (m_description m))
            else m)
         (medicine_tbl db))
    (reference_tbl db).

(** [UPDATE medicine SET name = COALESCE(@medicine_name, name)
     WHERE id = @medicine_id] *)
Definition update_medicine_name (mid : Z) (name : option string)
    (db : DB) : DB :=
  mkDB
    (patient_tbl db) (doctor_tbl db)
    (map (fun m =>
            if Z.eqb (m_id m) mid
            then mkMedicine (m_id m) (COALESCE name (m_name m))
                   (m_description m)
            else m)
         (medicine_tbl db))
    (reference_tbl db).

(** [name = @patientName]; a NULL name compares as unknown and is not
    selected. *)
Definition name_matches (name : string) (p : patient) : bool :=
  match p_name p with
  | Some n => sql_eqb n name
  | None => false
  end.

(** [SELECT * FROM patient WHERE name = @patientName] *)
Definition select_patient (name : string) (db : DB) : list patient :=
  filter (name_matches name) (patient_tbl db).

(** [SELECT reference_number FROM prescription_reference
     WHERE reference_number LIKE @ref_no] *)
Definition select_reference (pattern : string) (db : DB) : list string :=
  map reference_number
      (filter (fun pr => sql_like pattern (reference_number pr))
              (reference_tbl db)).

(** A row of the four-table join
    [prescription_reference pr JOIN patient p ON pr.patient_id = p.id
     JOIN doctor d ON pr.doctor_id = d.id
     JOIN medicine m ON pr.medicine_id = m.id]. *)
Record joined := mkJoined {
  j_ref : prescription_reference;
  j_patient : patient;
  j_doctor : doctor;
  j_medicine : medicine
}.

Definition join_one (db : DB) (pr : prescription_reference) : list joined :=
  flat_map (fun p =>
    flat_map (fun d =>
      map (fun m => mkJoined pr p d m)
          (filter (fun m => Z.eqb (medicine_id pr) (m_id m)) (medicine_tbl db)))
      (filter (fun d => Z.eqb (doctor_id pr) (d_id d)) (doctor_tbl db)))
    (filter (fun p => Z.eqb (patient_id pr) (p_id p)) (patient_tbl db)).

Definition join_all (db : DB) : list joined :=
  flat_map (join_one db) (reference_tbl db).

(** The join restricted by [WHERE pr.reference_number = @ref_no] *)
Definition select_prescription (ref : string) (db : DB) : list joined :=
  filter (fun j => sql_eqb (reference_number (j_ref j)) ref) (join_all db).

(** [ORDER BY pr.reference_number]: insertion into the sorted prefix,
    rows with equal keys keeping the order of the join. *)
Fixpoint insert_by_ref (j : joined) (l : list joined) : list joined :=
  match l with
  | [] => [j]
  | k :: l' =>
      if sql_leb (reference_number (j_ref j)) (reference_number (j_ref k))
      then j :: l
      else k :: insert_by_ref j l'
  end.

Definition order_by_ref (l : list joined) : list joined :=
  fold_right insert_by_ref [] l.

(** [SELECT COUNT( * ) AS totalCount FROM prescription_reference] *)
Definition select_count (db : DB) : Z :=
  Z.of_nat (List.length (reference_tbl db)).

(** [... ORDER BY pr.reference_number
     OFFSET @offset ROWS FETCH NEXT @pageSize ROWS ONLY] *)
Definition select_page (offset pageSize : Z) (db : DB) : list joined :=
  firstn (Z.to_nat pageSize)
         (skipn (Z.to_nat offset) (order_by_ref (join_all db))).

End Statements.
End Sql.

(* ================================================================== *)
(** ** The world of a handler: database, transaction, failures *)
(* ================================================================== *)

(** The operations a handler awaits on the [mssql] client. *)
Inductive Stmt :=
| CONNECT | BEGIN | COMMIT | ROLLBACK
| SELECT_IDS | UPDATE_PATIENT | UPDATE_DOCTOR | UPDATE_MEDICINE
| SELECT_PRESCRIPTION | SELECT_PATIENT | SELECT_REFERENCE
| SELECT_COUNT | SELECT_PAGE | EXEC_GetPatientsPaged.

Definition is_update (s : Stmt) : bool :=
  match s with
  | UPDATE_PATIENT | UPDATE_DOCTOR | UPDATE_MEDICINE => true
  | _ => false
  end.

(** [grpc.status]: the codes of a gRPC error *)
Inductive status :=
| CANCELLED | UNKNOWN | INVALID_ARGUMENT | DEADLINE_EXCEEDED | NOT_FOUND
| ALREADY_EXISTS | PERMISSION_DENIED | RESOURCE_EXHAUSTED
| FAILED_PRECONDITION | ABORTED | OUT_OF_RANGE | UNIMPLEMENTED | INTERNAL
| UNAVAILABLE | DATA_LOSS | UNAUTHENTICATED.

(** Response messages *)
Record PatientMsg := mkPatientMsg {
  pm_name : option string;
  pm_age : option Z;
  pm_gender : option string;
  pm_contact : option string
}.

Record PrescriptionMsg := mkPrescriptionMsg {
  rx_reference_number : string;
  rx_patient_name : option string;
  rx_age : option Z;
  rx_gender : option string;
  rx_contact : option string;
  rx_doctor_name : option string;
  rx_medicine_name : option string;
  rx_description : option string
}.

Record PatientWithDetails := mkPatientWithDetails {
  pd_reference_number : string;
  pd_name : option string;
  pd_age : option Z;
  pd_gender : option string;
  pd_contact : option string;
  pd_doctor_name : option string;
  pd_medicine_name : option string;
  pd_description : option string;
  pd_totalCount : Z;
  pd_totalPages : Z
}.

Inductive Payload :=
| Prescription (m : PrescriptionMsg)
| Patient (m : PatientMsg)
| Patients (patients : list PatientWithDetails) (totalPages : option Z)
| Success (success : bool)
| References (reference : list string).

(** One invocation of the gRPC callback: [callback(err)] or
    [callback(null, value)]. *)
Inductive Reply :=
| Err (code : status) (message : string)
| Ok (value : Payload).

Record World := mkWorld {
  committed : DB;                   (* what every connection sees *)
  working : option DB;              (* the view inside the open transaction *)
  oracle : list (option string);    (* per awaited operation: the error it rejects with *)
  log : list (Stmt * bool);         (* operations attempted, with their success *)
  replies : list Reply              (* callback invocations, oldest first *)
}.

Inductive outcome (A : Type) :=
| Done (a : A)
| Thrown (err : string).
Arguments Done {A} a.
Arguments Thrown {A} err.

Definition M (A : Type) : Type := World -> outcome A * World.

Definition ret {A} (a : A) : M A := fun w => (Done a, w).

Definition throw {A} (err : string) : M A := fun w => (Thrown err, w).

Definition bind {A B} (m : M A) (k : A -> M B) : M B :=
  fun w =>
    match m w with
    | (Done a, w') => k a w'
    | (Thrown err, w') => (Thrown err, w')
    end.

(** [try { body } catch (err) { handler }] *)
Definition try_catch {A} (body : M A) (handler : string -> M A) : M A :=
  fun w =>
    match body w with
    | (Done a, w') => (Done a, w')
    | (Thrown err, w') => handler err w'
    end.

Notation "x <- c1 ;; c2" := (bind c1 (fun x => c2))
  (at level 61, c1 at next level, right associativity).
Notation "c1 ;; c2" := (bind c1 (fun _ => c2))
  (at level 61, right associativity).

(** Awaiting a database operation: the oracle says whether it rejects.
    An exhausted oracle lets every further operation succeed. *)
Definition await (s : Stmt) : M unit :=
  fun w =>
    match oracle w with
    | Some err :: rest =>
        (Thrown err,
         mkWorld (committed w) (working w) rest (log w ++ [(s, false)]) (replies w))
    | None :: rest =>
        (Done tt,
         mkWorld (committed w) (working w) rest (log w ++ [(s, true)]) (replies w))
    | [] =>
        (Done tt,
         mkWorld (committed w) (working w) [] (log w ++ [(s, true)]) (replies w))
    end.

Definition callback (r : Reply) : M unit :=
  fun w =>
    (Done tt,
     mkWorld (committed w) (working w) (oracle w) (log w) (replies w ++ [r])).

(** [await sql.connect(sqlConfig)] *)
Definition connect : M unit := await CONNECT.

(** [await pool.request()....query(...)]: a statement outside any
    transaction reads the committed state. *)
Definition pool_query {A} (s : Stmt) (q : DB -> A) : M A :=
  await s ;;
  fun w => (Done (q (committed w)), w).

(** [await transaction.begin()] *)
Definition tx_begin : M unit :=
  await BEGIN ;;
  fun w =>
    (Done tt,
     mkWorld (committed w) (Some (committed w)) (oracle w) (log w) (replies w)).

(** [await transaction.request()....query(SELECT ...)] *)
Definition tx_query {A} (s : Stmt) (q : DB -> A) : M A :=
  await s ;;
  fun w =>
    match working w with
    | Some db => (Done (q db), w)
    | None => (Thrown "Transaction has not begun", w)
    end.

(** [await transaction.request()....query(UPDATE ...)]: a statement
    that rejects changes nothing. *)
Definition tx_update (s : Stmt) (u : DB -> DB) : M unit :=
  await s ;;
  fun w =>
    match working w with
    | Some db =>
        (Done tt,
         mkWorld (committed w) (Some (u db)) (oracle w) (log w) (replies w))
    | None => (Thrown "Transaction has not begun", w)
    end.

(** [await transaction.commit()]: the view of the transaction becomes
    the committed state. *)
Definition tx_commit : M unit :=
  await COMMIT ;;
  fun w =>
    match working w with
    | Some db =>
        (Done tt, mkWorld db None (oracle w) (log w) (replies w))
    | None => (Thrown "Transaction has not begun", w)
    end.

(** [await transaction.rollback()]: the view of the transaction is
    dropped. *)
Definition tx_rollback : M unit :=
  await ROLLBACK ;;
  fun w =>
    match working w with
    | Some _ =>
        (Done tt, mkWorld (committed w) None (oracle w) (log w) (replies w))
    | None => (Thrown "Transaction has not begun", w)
    end.

(** The world a request arrives in: no transaction open, nothing
    logged, no callback made. *)
Definition arrive (db : DB) (faults : list (option string)) : World :=
  mkWorld db None faults [] [].

(** The request of UpdatePatientDetails: the reference number, and the
    optional fields, each present or not *)
Record UpdateRequest := mkUpdateRequest {
  u_reference_number : string;
  u_name : option string;
  u_age : option Z;
  u_gender : option string;
  u_contact : option string;
  u_doctor_name : option string;
  u_medicine_name : option string;
  u_description : option string
}.

(** The unary calls the gRPC server registers in [main] *)
Inductive Operation :=
| OpGetPrescription (ref_no : string)
| OpGetPatient (name : string)
| OpGetAllPatients (page pageSize : option Z)
| OpUpdatePatientDetails (req : UpdateRequest)
| OpGetReference (ref_no : string).

(* ================================================================== *)
(** ** The gRPC service with the description column *)
(* ================================================================== *)

Module Service.
Section Handlers.
Context {C : Collation}.
Import JS Sql.

Definition UpdatePatientDetails (req : UpdateRequest) : M unit :=
  let name := u_name req in
  let age := u_age req in
  let gender := u_gender req in
  let contact := u_contact req in
  let doctor_name := u_doctor_name req in
  let medicine_name := u_medicine_name req in
  let description := u_description req in
  try_catch
    (connect ;;
     tx_begin ;;
     try_catch
       (patientResult <- tx_query SELECT_IDS (select_ids (u_reference_number req)) ;;
        match patientResult with
        | [] =>
            tx_rollback ;;
            callback (Err NOT_FOUND "Patient not found")
        | ids :: _ =>
            (if truthy_str name || truthy_num age
                || truthy_str gender || truthy_str contact
             then tx_update UPDATE_PATIENT
                    (update_patient (patient_id ids)
                       (str_or_null name) (num_or_null age)
                       (str_or_null gender) (str_or_null contact))
             else ret tt) ;;
            (if truthy_str doctor_name
             then tx_update UPDATE_DOCTOR
                    (update_doctor (doctor_id ids) doctor_name)
             else ret tt) ;;
            (if truthy_str medicine_name || truthy_str description
             then tx_update UPDATE_MEDICINE
                    (update_medicine (medicine_id ids)
                       (str_or_null medicine_name) (str_or_null description))
             else ret tt) ;;
            tx_commit ;;
            callback (Ok (Success true))
        end)
       (fun err => tx_rollback ;; throw err))
    (fun err => callback (Err INTERNAL ("Database error: " ++ err))).

(** [Math.ceil(totalCount / pageSize)] on integers, [pageSize] not 0:
    the quotient of two integers below 2^53 is rounded to a double that
    lies on the same side of every integer, so the ceiling is exact. *)
Definition ceil_div (a b : Z) : Z := - ((- a) / b).

(** What driver and server accept as [@offset] and [@pageSize]: both are
    bound as [sql.Int], OFFSET may not be negative and FETCH NEXT wants
    at least one row. *)
Definition sql_int (n : Z) : bool :=
  Z.leb (-2147483648) n && Z.leb n 2147483647.

Definition page_params_ok (offset pageSize : Z) : bool :=
  sql_int offset && sql_int pageSize && Z.leb 0 offset && Z.leb 1 pageSize.

(** The page query; with parameters that are refused it rejects. *)
Definition page_query (offset pageSize : Z) : M (list joined) :=
  if page_params_ok offset pageSize
  then pool_query SELECT_PAGE (select_page offset pageSize)
  else
    fun w =>
      (Thrown "Invalid OFFSET or FETCH parameter",
       mkWorld (committed w) (working w) (oracle w)
               (log w ++ [(SELECT_PAGE, false)]) (replies w)).

Definition GetPrescription (ref_no : string) : M unit :=
  try_catch
    (connect ;;
     result <- pool_query SELECT_PRESCRIPTION (select_prescription ref_no) ;;
     match result with
     | [] => callback (Err NOT_FOUND "Prescription not found")
     | row :: _ =>
         callback (Ok (Prescription
           (mkPrescriptionMsg
              (reference_number (j_ref row))
              (p_name (j_patient row))
              (p_age (j_patient row))
              (p_gender (j_patient row))
              (p_contact (j_patient row))
              (d_name (j_doctor row))
              (m_name (j_medicine row))
              (m_description (j_medicine row)))))
     end)
    (fun _ => callback (Err INTERNAL "Database error")).

Definition GetPatient (patientName : string) : M unit :=
  try_catch
    (connect ;;
     result <- pool_query SELECT_PATIENT (select_patient patientName) ;;
     match result with
     | [] => callback (Err NOT_FOUND "Patient not found")
     | row :: _ =>
         callback (Ok (Patient
           (mkPatientMsg (p_name row) (p_age row) (p_gender row) (p_contact row))))
     end)
    (fun _ => callback (Err INTERNAL "Database error")).

Definition GetAllPatients (req_page req_pageSize : option Z) : M unit :=
  let page := num_or req_page 1 in
  let pageSize := num_or req_pageSize 10 in
  let offset := (page - 1) * pageSize in
  try_catch
    (connect ;;
     totalCount <- pool_query SELECT_COUNT select_count ;;
     let totalPages := ceil_div totalCount pageSize in
     result <- page_query offset pageSize ;;
     let patients :=
       map (fun row =>
              mkPatientWithDetails
                (reference_number (j_ref row))
                (p_name (j_patient row))
                (p_age (j_patient row))
                (p_gender (j_patient row))
                (p_contact (j_patient row))
                (d_name (j_doctor row))
                (m_name (j_medicine row))
                (m_description (j_medicine row))
                totalCount totalPages)
           result in
     callback (Ok (Patients patients (Some totalPages))))
    (fun _ => callback (Err INTERNAL "Database error")).

Definition GetReference (ref_no : string) : M unit :=
  try_catch
    (connect ;;
     result <- pool_query SELECT_REFERENCE
                 (select_reference ("%" ++ ref_no ++ "%")) ;;
     match result with
     | [] => callback (Err NOT_FOUND "No reference found")
     | _ :: _ => callback (Ok (References result))
     end)
    (fun _ => callback (Err INTERNAL "Database error")).

(** [server.addService(...)]: the handler registered for each call *)
Definition serve (op : Operation) : M unit :=
  match op with
  | OpGetPrescription ref_no => GetPrescription ref_no
  | OpGetPatient name => GetPatient name
  | OpGetAllPatients page pageSize => GetAllPatients page pageSize
  | OpUpdatePatientDetails req => UpdatePatientDetails req
  | OpGetReference ref_no => GetReference ref_no
  end.

End Handlers.
End Service.

(* ================================================================== *)
(** ** src/grpc/server.js *)
(* ================================================================== *)

Module Server.
Section Handlers.
Context {C : Collation}.
Import JS Sql.

(** The stored procedure GetPatientsPaged lives in the database, not in
    the repository; the handler only reads its record set, whose rows
    already carry [totalCount] and [totalPages], and builds each row of
    its answer from nine columns of it: a description column, if the
    record set has one, is not among them. *)
Variable GetPatientsPaged : Z -> Z -> DB -> list PatientWithDetails.

Definition GetPrescription (ref_no : string) : M unit :=
  try_catch
    (connect ;;
     result <- pool_query SELECT_PRESCRIPTION (select_prescription ref_no) ;;
     match result with
     | [] => callback (Err NOT_FOUND "Prescription not found")
     | row :: _ =>
         callback (Ok (Prescription
           (mkPrescriptionMsg
              (reference_number (j_ref row))
              (p_name (j_patient row))
              (p_age (j_patient row))
              (p_gender (j_patient row))
              (p_contact (j_patient row))
              (d_name (j_doctor row))
              (m_name (j_medicine row))
              None)))
     end)
    (fun _ => callback (Err INTERNAL "Database error")).

Definition GetPatient (patientName : string) : M unit :=
  try_catch
    (connect ;;
     result <- pool_query SELECT_PATIENT (select_patient patientName) ;;
     match result with
     | [] => callback (Err NOT_FOUND "Patient not found")
     | row :: _ =>
         callback (Ok (Patient
           (mkPatientMsg (p_name row) (p_age row) (p_gender row) (p_contact row))))
     end)
    (fun _ => callback (Err INTERNAL "Database error")).

Definition GetAllPatients (req_page req_pageSize : option Z) : M unit :=
  let page := num_or req_page 1 in
  let pageSize := num_or req_pageSize 10 in
  try_catch
    (connect ;;
     result <- pool_query EXEC_GetPatientsPaged (GetPatientsPaged page pageSize) ;;
     let patients :=
       map (fun row =>
              mkPatientWithDetails
                (pd_reference_number row)
                (pd_name row)
                (pd_age row)
                (pd_gender row)
                (pd_contact row)
                (pd_doctor_name row)
                (pd_medicine_name row)
                None
                (pd_totalCount row)
                (pd_totalPages row))
           result in
     callback (Ok (Patients patients None)))
    (fun err => callback (Err INTERNAL ("Database error: " ++ err))).

Definition UpdatePatientDetails (req : UpdateRequest) : M unit :=
  let name := u_name req in
  let age := u_age req in
  let gender := u_gender req in
  let contact := u_contact req in
  let doctor_name := u_doctor_name req in
  let medicine_name := u_medicine_name req in
  try_catch
    (connect ;;
     tx_begin ;;
     try_catch
       (patientResult <- tx_query SELECT_IDS (select_ids (u_reference_number req)) ;;
        match patientResult with
        | [] =>
            tx_rollback ;;
            callback (Err NOT_FOUND "Patient not found")
        | ids :: _ =>
            (if truthy_str name || truthy_num age
                || truthy_str gender || truthy_str contact
             then tx_update UPDATE_PATIENT
                    (update_patient (patient_id ids)
                       (str_or_null name) (num_or_null age)
                       (str_or_null gender) (str_or_null contact))
             else ret tt) ;;
            (if truthy_str doctor_name
             then tx_update UPDATE_DOCTOR
                    (update_doctor (doctor_id ids) doctor_name)
             else ret tt) ;;
            (if truthy_str medicine_name
             then tx_update UPDATE_MEDICINE
                    (update_medicine_name (medicine_id ids)
                       (str_or_null medicine_name))
             else ret tt) ;;
            tx_commit ;;
            callback (Ok (Success true))
        end)
       (fun err => tx_rollback ;; throw err))
    (fun err => callback (Err INTERNAL ("Database error: " ++ err))).

Definition GetReference (ref_no : string) : M unit :=
  try_catch
    (connect ;;
     result <- pool_query SELECT_REFERENCE
                 (select_reference ("%" ++ ref_no ++ "%")) ;;
     match result with
     | [] => callback (Err NOT_FOUND "No reference found")
     | _ :: _ => callback (Ok (References result))
     end)
    (fun _ => callback (Err INTERNAL "Database error")).

(** [server.addService(...)]: the handler registered for each call *)
Definition serve (op : Operation) : M unit :=
  match op with
  | OpGetPrescription ref_no => GetPrescription ref_no
  | OpGetPatient name => GetPatient name
  | OpGetAllPatients page pageSize => GetAllPatients page pageSize
  | OpUpdatePatientDetails req => UpdatePatientDetails req
  | OpGetReference ref_no => GetReference ref_no
  end.

End Handlers.
End Server.

(* ================================================================== *)
(** ** src/bff/bffserver.js: the GraphQL resolvers *)
(* ================================================================== *)

Module Bff.

(** The error a gRPC client hands to the callback of a unary call *)
Record ServiceError := mkServiceError {
  se_code : status;
  se_details : string
}.

(** Response objects as the proto loader builds them: a field that was
    not sent is [undefined]. *)
Record PatientsResponse := mkPatientsResponse {
  patients : option (list PatientWithDetails);
  totalPages : option Z
}.

Record SearchResponse := mkSearchResponse {
  reference : option (list string)
}.

Record UpdateResponse := mkUpdateResponse {
  success : option bool
}.

(** The unary calls of [patientClient], [prescriptionClient] and
    [searchClient], indexed by the type of their response. *)
Inductive Rpc : Type -> Type :=
| GetPatient (name : string) : Rpc PatientMsg
| GetAllPatients (page pageSize : option Z) : Rpc PatientsResponse
| GetPrescription (ref_no : string) : Rpc PrescriptionMsg
| GetReference (ref_no : string) : Rpc SearchResponse
| UpdatePatientDetails (args : UpdateRequest) : Rpc UpdateResponse.

(** How a promise ends *)
Inductive settled (A : Type) :=
| Resolved (value : A)
| Rejected (err : ServiceError).
Arguments Resolved {A} value.
Arguments Rejected {A} err.

(** A resolver: it settles, or it invokes a call and continues with the
    arguments [(err, response)] of the callback. *)
Inductive io (A : Type) : Type :=
| Settle (s : settled A)
| Invoke (R : Type) (call : Rpc R) (k : ServiceError + R -> io A).
Arguments Settle {A} s.
Arguments Invoke {A R} call k.

Definition getPatient (name : string) : io PatientMsg :=
  Invoke (GetPatient name) (fun cb =>
    match cb with
    | inl err => Settle (Rejected err)
    | inr response => Settle (Resolved response)
    end).

Definition getAllPatients (page pageSize : option Z)
    : io (list PatientWithDetails) :=
  Invoke (GetAllPatients page pageSize) (fun cb =>
    match cb with
    | inl err => Settle (Rejected err)
    | inr response =>
        Settle (Resolved match patients response with
                         | Some l => l
                         | None => []
                         end)
    end).

Definition getPrescription (ref_no : string) : io PrescriptionMsg :=
  Invoke (GetPrescription ref_no) (fun cb =>
    match cb with
    | inl err => Settle (Rejected err)
    | inr response => Settle (Resolved response)
    end).

Definition getReference (ref_no : string) : io SearchResponse :=
  Invoke (GetReference ref_no) (fun cb =>
    match cb with
    | inl err => Settle (Rejected err)
    | inr response => Settle (Resolved response)
    end).

Definition updatePatientDetails (args : UpdateRequest) : io (option bool) :=
  Invoke (UpdatePatientDetails args) (fun cb =>
    match cb with
    | inl err => Settle (Rejected err)
    | inr response => Settle (Resolved (success response))
    end).

(** The remote side: what the callback of the [n]-th call receives. *)
Definition Remote : Type := forall R, nat -> Rpc R -> ServiceError + R.

(** A call that was made, with its arguments *)
Definition call : Type := { R : Type & Rpc R }.

Definition made {R} (c : Rpc R) : call := existT _ R c.

(** Running a resolver against a remote side: the calls made, oldest
    first, and how the promise settles. *)
Fixpoint run_from {A} (n : nat) (remote : Remote) (p : io A)
    : list call * settled A :=
  match p with
  | Settle s => ([], s)
  | Invoke c k =>
      let '(calls, s) := run_from (S n) remote (k (remote _ n c)) in
      (made c :: calls, s)
  end.

Definition run {A} (remote : Remote) (p : io A) : list call * settled A :=
  run_from 0 remote p.

End Bff.

(* ================================================================== *)
(** ** Vocabulary of the statements *)
(* ================================================================== *)

(** An oracle under which no awaited operation rejects *)
Definition fault_free (faults : list (option string)) : bool :=
  forallb (fun f => match f with None => true | Some _ => false end) faults.

(** The operations that rejected during a run *)
Definition failures (w : World) : list Stmt :=
  map fst (filter (fun e => negb (snd e)) (log w)).

(** The UPDATE statements attempted during a run *)
Definition updates_attempted (w : World) : list Stmt :=
  filter is_update (map fst (log w)).

Definition succeeded (l : list Stmt) : list (Stmt * bool) :=
  map (fun s => (s, true)) l.

(** Statements issued on the transaction before COMMIT *)
Definition in_transaction (s : Stmt) : bool :=
  match s with
  | SELECT_IDS | UPDATE_PATIENT | UPDATE_DOCTOR | UPDATE_MEDICINE => true
  | _ => false
  end.

(** Every rejected statement of the transaction is directly followed by
    an attempt to roll back. *)
Fixpoint rollback_follows (l : list (Stmt * bool)) : bool :=
  match l with
  | [] => true
  | (s, ok) :: rest =>
      (if negb ok && in_transaction s
       then match rest with
            | (ROLLBACK, _) :: _ => true
            | _ => false
            end
       else true)
      && rollback_follows rest
  end.

Definition commit_succeeded (l : list (Stmt * bool)) : bool :=
  existsb (fun e => match e with (COMMIT, true) => true | _ => false end) l.

(** The request with every falsy optional field removed *)
Definition drop_falsy (req : UpdateRequest) : UpdateRequest :=
  mkUpdateRequest (u_reference_number req)
    (JS.str_or_null (u_name req)) (JS.num_or_null (u_age req))
    (JS.str_or_null (u_gender req)) (JS.str_or_null (u_contact req))
    (JS.str_or_null (u_doctor_name req))
    (JS.str_or_null (u_medicine_name req))
    (JS.str_or_null (u_description req)).

(** The request without its description, as [src/grpc/server.js]
    destructures it *)
Definition without_description (req : UpdateRequest) : UpdateRequest :=
  mkUpdateRequest (u_reference_number req)
    (u_name req) (u_age req) (u_gender req) (u_contact req)
    (u_doctor_name req) (u_medicine_name req) None.

(** The value a column holds after a successful update: the field when
    it is truthy, the stored value otherwise. *)
Definition new_str (field stored : option string) : option string :=
  if JS.truthy_str field then field else stored.

Definition new_num (field stored : option Z) : option Z :=
  if JS.truthy_num field then field else stored.

Section Expected.
Context {C : Collation}.

Definition patient_fields (req : UpdateRequest) : bool :=
  JS.truthy_str (u_name req) || JS.truthy_num (u_age req)
  || JS.truthy_str (u_gender req) || JS.truthy_str (u_contact req).

Definition doctor_fields (req : UpdateRequest) : bool :=
  JS.truthy_str (u_doctor_name req).

Definition medicine_fields (req : UpdateRequest) : bool :=
  JS.truthy_str (u_medicine_name req) || JS.truthy_str (u_description req).

(** The UPDATE statements a request asks for, in the order of the code *)
Definition issued (req : UpdateRequest) : list Stmt :=
  (if patient_fields req then [UPDATE_PATIENT] else [])
  ++ (if doctor_fields req then [UPDATE_DOCTOR] else [])
  ++ (if medicine_fields req then [UPDATE_MEDICINE] else []).

(** The database after all of them *)
Definition updated (req : UpdateRequest) (ids : prescription_reference)
    (db : DB) : DB :=
  let db1 :=
    if patient_fields req
    then Sql.update_patient (patient_id ids)
           (JS.str_or_null (u_name req)) (JS.num_or_null (u_age req))
           (JS.str_or_null (u_gender req)) (JS.str_or_null (u_contact req)) db
    else db in
  let db2 :=
    if doctor_fields req
    then Sql.update_doctor (doctor_id ids) (u_doctor_name req) db1
    else db1 in
  if medicine_fields req
  then Sql.update_medicine (medicine_id ids)
         (JS.str_or_null (u_medicine_name req))
         (JS.str_or_null (u_description req)) db2
  else db2.

(** The three ways a run of UpdatePatientDetails ends *)
Definition rejected_run (db : DB) (faults : list (option string))
    (w : World) : Prop :=
  fault_free faults = false /\
  failures w <> [] /\
  (exists err, replies w = [Err INTERNAL ("Database error: " ++ err)]) /\
  committed w = db /\
  rollback_follows (log w) = true /\
  commit_succeeded (log w) = false.

Definition not_found_run (db : DB) (req : UpdateRequest) (w : World) : Prop :=
  Sql.select_ids (u_reference_number req) db = [] /\
  log w = succeeded [CONNECT; BEGIN; SELECT_IDS; ROLLBACK] /\
  replies w = [Err NOT_FOUND "Patient not found"] /\
  committed w = db.

Definition committed_run (db : DB) (req : UpdateRequest) (w : World) : Prop :=
  exists ids rest,
    Sql.select_ids (u_reference_number req) db = ids :: rest /\
    log w = succeeded ([CONNECT; BEGIN; SELECT_IDS] ++ issued req ++ [COMMIT]) /\
    replies w = [Ok (Success true)] /\
    committed w = updated req ids db.

End Expected.

(** A request that carries its reference number only *)
Definition reference_only (ref : string) : UpdateRequest :=
  mkUpdateRequest ref None None None None None None None.

(** Referential integrity: every prescription_reference row references
    exactly one existing patient, doctor and medicine row. *)
Definition exactly_one {A} (id_of : A -> Z) (tbl : list A) (k : Z) : Prop :=
  List.length (filter (fun r => Z.eqb (id_of r) k) tbl) = 1%nat.

Definition referential_integrity (db : DB) : Prop :=
  Forall (fun pr =>
            exactly_one p_id (patient_tbl db) (patient_id pr)
            /\ exactly_one d_id (doctor_tbl db) (doctor_id pr)
            /\ exactly_one m_id (medicine_tbl db) (medicine_id pr))
         (reference_tbl db).

(** What a handler that looks rows up leaves behind: the statuses it
    can answer with, when it answers with which, one callback per call
    and every operation attempted at most once. *)
Definition lookup_outcome (q : Stmt) (not_found : string) (no_match : Prop)
    (w : World) : Prop :=
  (replies w = [Err INTERNAL "Database error"] <-> failures w <> [])
  /\ (replies w = [Err NOT_FOUND not_found] <-> failures w = [] /\ no_match)
  /\ ((exists value, replies w = [Ok value]) <-> failures w = [] /\ ~ no_match)
  /\ (forall code message,
        In (Err code message) (replies w) -> code = NOT_FOUND \/ code = INTERNAL)
  /\ List.length (replies w) = 1%nat
  /\ (log w = [(CONNECT, false)]
      \/ log w = [(CONNECT, true); (q, false)]
      \/ log w = [(CONNECT, true); (q, true)]).

(** The message built from a row of the page, with the two totals *)
Definition page_row (totalCount totalPages : Z) (row : Sql.joined)
    : PatientWithDetails :=
  mkPatientWithDetails
    (reference_number (Sql.j_ref row))
    (p_name (Sql.j_patient row))
    (p_age (Sql.j_patient row))
    (p_gender (Sql.j_patient row))
    (p_contact (Sql.j_patient row))
    (d_name (Sql.j_doctor row))
    (m_name (Sql.j_medicine row))
    (m_description (Sql.j_medicine row))
    totalCount totalPages.

(** Rows in the order of their reference numbers *)
Definition ordered_by_ref {C : Collation} (l : list Sql.joined) : Prop :=
  Sorted (fun a b => sql_leb (reference_number (Sql.j_ref a))
                             (reference_number (Sql.j_ref b)) = true) l.

(** Two states with the same keys in every table and the same
    prescription_reference rows *)
Definition same_keys (db db' : DB) : Prop :=
  map p_id (patient_tbl db') = map p_id (patient_tbl db)
  /\ map d_id (doctor_tbl db') = map d_id (doctor_tbl db)
  /\ map m_id (medicine_tbl db') = map m_id (medicine_tbl db)
  /\ reference_tbl db' = reference_tbl db.

(** A database with one prescription, used to run the handlers *)
Definition sample_db : DB :=
  mkDB [mkPatient 1 (Some "Ann") (Some 30) (Some "F") (Some "555")]
       [mkDoctor 7 (Some "Dr Who")]
       [mkMedicine 9 (Some "Aspirin") (Some "pain relief")]
       [mkReference "R1" 1 7 9].

(** A request for that prescription with a new name, the age 0 and an
    empty description *)
Definition sample_update : UpdateRequest :=
  mkUpdateRequest "R1" (Some "Bob") (Some 0) None None None None (Some "").

(** The two copies of the service in the repository *)
Inductive Variant := WithDescription | WithoutDescription.

Section Variants.
Context {C : Collation}.

Definition UpdatePatientDetails_of (v : Variant) : UpdateRequest -> M unit :=
  match v with
  | WithDescription => Service.UpdatePatientDetails
  | WithoutDescription => Server.UpdatePatientDetails
  end.

Definition GetPatient_of (v : Variant) : string -> M unit :=
  match v with
  | WithDescription => Service.GetPatient
  | WithoutDescription => Server.GetPatient
  end.

Definition GetPrescription_of (v : Variant) : string -> M unit :=
  match v with
  | WithDescription => Service.GetPrescription
  | WithoutDescription => Server.GetPrescription
  end.

Definition GetReference_of (v : Variant) : string -> M unit :=
  match v with
  | WithDescription => Service.GetReference
  | WithoutDescription => Server.GetReference
  end.

(** [paged] stands for the stored procedure GetPatientsPaged. *)
Definition serve_of (paged : Z -> Z -> DB -> list PatientWithDetails)
    (v : Variant) : Operation -> M unit :=
  match v with
  | WithDescription => Service.serve
  | WithoutDescription => Server.serve paged
  end.

(** A sequence of requests, each arriving in the state the previous one
    left committed, each with its own failures *)
Fixpoint serve_all (paged : Z -> Z -> DB -> list PatientWithDetails)
    (v : Variant) (requests : list (Operation * list (option string)))
    (db : DB) : DB :=
  match requests with
  | [] => db
  | (op, faults) :: later =>
      serve_all paged v later
        (committed (snd (serve_of paged v op (arrive db faults))))
  end.

(** The fields of the request a variant reads *)
Definition seen_by (v : Variant) (req : UpdateRequest) : UpdateRequest :=
  match v with
  | WithDescription => req
  | WithoutDescription => without_description req
  end.

End Variants.

(* ================================================================== *)
(** ** Vocabulary of the further properties *)
(* ================================================================== *)

(** A row after a committed update that went through the reference
    [ids]: the row with the id the reference carries takes the truthy
    fields of the request, every other row stays. *)
Definition patient_after (req : UpdateRequest) (ids : prescription_reference)
    (p : patient) : patient :=
  if Z.eqb (p_id p) (patient_id ids)
  then mkPatient (p_id p)
         (new_str (u_name req) (p_name p))
         (new_num (u_age req) (p_age p))
         (new_str (u_gender req) (p_gender p))
         (new_str (u_contact req) (p_contact p))
  else p.

Definition doctor_after (req : UpdateRequest) (ids : prescription_reference)
    (d : doctor) : doctor :=
  if Z.eqb (d_id d) (doctor_id ids)
  then mkDoctor (d_id d) (new_str (u_doctor_name req) (d_name d))
  else d.

Definition medicine_after (req : UpdateRequest) (ids : prescription_reference)
    (m : medicine) : medicine :=
  if Z.eqb (m_id m) (medicine_id ids)
  then mkMedicine (m_id m)
         (new_str (u_medicine_name req) (m_name m))
         (new_str (u_description req) (m_description m))
  else m.

Definition joined_after (req : UpdateRequest) (ids : prescription_reference)
    (j : Sql.joined) : Sql.joined :=
  Sql.mkJoined (Sql.j_ref j)
    (patient_after req ids (Sql.j_patient j))
    (doctor_after req ids (Sql.j_doctor j))
    (medicine_after req ids (Sql.j_medicine j)).

(** The messages the handlers build from a row *)
Definition patient_msg (row : patient) : PatientMsg :=
  mkPatientMsg (p_name row) (p_age row) (p_gender row) (p_contact row).

Definition prescription_msg (v : Variant) (row : Sql.joined) : PrescriptionMsg :=
  mkPrescriptionMsg
    (reference_number (Sql.j_ref row))
    (p_name (Sql.j_patient row))
    (p_age (Sql.j_patient row))
    (p_gender (Sql.j_patient row))
    (p_contact (Sql.j_patient row))
    (d_name (Sql.j_doctor row))
    (m_name (Sql.j_medicine row))
    match v with
    | WithDescription => m_description (Sql.j_medicine row)
    | WithoutDescription => None
    end.

(** The message of the last operation that rejected, among the oracle
    entries consumed *)
Definition last_error (consumed : list (option string)) : option string :=
  fold_left (fun acc f => match f with Some err => Some err | None => acc end)
            consumed None.

(** The committed database a handler leaves *)
Definition db_after (h : M unit) (db : DB) (faults : list (option string)) : DB :=
  committed (snd (h (arrive db faults))).

(** What the caller of a handler receives *)
Definition answers (h : M unit) (db : DB) (faults : list (option string))
    : list Reply :=
  replies (snd (h (arrive db faults))).

(** Whether one of the first [n] awaited operations rejects *)
Definition rejects (n : nat) (faults : list (option string)) : bool :=
  negb (fault_free (firstn n faults)).

(** The rows of an answer of GetAllPatients; none when the answer is an
    error *)
Definition listed (answer : list Reply) : list PatientWithDetails :=
  match answer with
  | [Ok (Patients rows _)] => rows
  | _ => []
  end.

(** The prescription message after a committed update, from the one
    before it *)
Definition prescription_msg_after (v : Variant) (req : UpdateRequest)
    (m : PrescriptionMsg) : PrescriptionMsg :=
  mkPrescriptionMsg
    (rx_reference_number m)
    (new_str (u_name req) (rx_patient_name m))
    (new_num (u_age req) (rx_age m))
    (new_str (u_gender req) (rx_gender m))
    (new_str (u_contact req) (rx_contact m))
    (new_str (u_doctor_name req) (rx_doctor_name m))
    (new_str (u_medicine_name req) (rx_medicine_name m))
    match v with
    | WithDescription => new_str (u_description req) (rx_description m)
    | WithoutDescription => None
    end.

(** The message of the first operation that rejects *)
Fixpoint first_error (faults : list (option string)) : option string :=
  match faults with
  | [] => None
  | Some err :: _ => Some err
  | None :: later => first_error later
  end.

(** The operations that only read *)
Definition reads_only (s : Stmt) : bool :=
  match s with
  | CONNECT | SELECT_PRESCRIPTION | SELECT_PATIENT | SELECT_REFERENCE
  | SELECT_COUNT | SELECT_PAGE | EXEC_GetPatientsPaged => true
  | _ => false
  end.

(** Nothing is attempted after an operation that rejected. *)
Fixpoint stops_at_rejection (l : list (Stmt * bool)) : bool :=
  match l with
  | [] => true
  | (_, ok) :: later =>
      (ok || match later with [] => true | _ :: _ => false end)
      && stops_at_rejection later
  end.

(** A ROLLBACK that rejected, an attempt to roll back, a lookup of the
    ids that returned *)
Definition rollback_rejected (l : list (Stmt * bool)) : bool :=
  existsb (fun e => match e with (ROLLBACK, false) => true | _ => false end) l.

Definition rollback_attempted (l : list (Stmt * bool)) : bool :=
  existsb (fun e => match e with (ROLLBACK, _) => true | _ => false end) l.

Definition lookup_returned (l : list (Stmt * bool)) : bool :=
  existsb (fun e => match e with (SELECT_IDS, true) => true | _ => false end) l.

Definition transaction_begun (l : list (Stmt * bool)) : bool :=
  existsb (fun e => match e with (BEGIN, true) => true | _ => false end) l.

(** An answer without the description of the medicine *)
Definition forget_description (r : Reply) : Reply :=
  match r with
  | Ok (Prescription m) =>
      Ok (Prescription
            (mkPrescriptionMsg (rx_reference_number m) (rx_patient_name m)
               (rx_age m) (rx_gender m) (rx_contact m) (rx_doctor_name m)
               (rx_medicine_name m) None))
  | _ => r
  end.

(** A database with three prescriptions: two patients of the same name,
    and a doctor and a medicine shared by two prescriptions *)
Definition clinic_db : DB :=
  mkDB [mkPatient 1 (Some "Ann") (Some 30) (Some "F") (Some "555");
        mkPatient 2 (Some "Ann") (Some 41) (Some "F") None;
        mkPatient 3 (Some "Carl") None (Some "M") (Some "777")]
       [mkDoctor 7 (Some "Dr Who"); mkDoctor 8 (Some "Dr No")]
       [mkMedicine 9 (Some "Aspirin") (Some "pain relief");
        mkMedicine 10 (Some "Zinc") None]
       [mkReference "R1" 1 7 9; mkReference "R2" 2 8 10;
        mkReference "R3" 3 7 9].

(** A stand-in for GetPatientsPaged that shows the parameters it was
    called with: the page as age, the page size as totalCount *)
Definition echo_procedure (page pageSize : Z) (db : DB)
    : list PatientWithDetails :=
  [mkPatientWithDetails "row" (Some "Ann") (Some page) None None None None
     (Some "a description column") pageSize 1].

(* ================================================================== *)
(** ** Running the handlers *)
(* ================================================================== *)

Ltac step_oracle :=
  match goal with
  | |- context [match ?l with [] => _ | _ :: _ => _ end] =>
      is_var l; destruct l as [|[?|] ?]
  end.

Ltac world_simpl :=
  cbn [oracle committed working log replies fst snd app].

Ltac run_handler :=
  unfold try_catch, connect, pool_query, tx_begin, tx_query, tx_update,
    tx_commit, tx_rollback, callback, await, bind, ret, throw, arrive;
  world_simpl;
  repeat (step_oracle; world_simpl).

Section UpdateRuns.
Context {C : Collation}.

Lemma Service_update_run db faults req :
  let r := Service.UpdatePatientDetails req (arrive db faults) in
  fst r = Done tt /\
  (rejected_run db faults (snd r)
   \/ not_found_run db req (snd r)
   \/ committed_run db req (snd r)) /\
  (Sql.select_ids (u_reference_number req) db = [] ->
   updates_attempted (snd r) = []) /\
  (forall s, In s (updates_attempted (snd r)) -> In s (issued req)).
Proof.
  unfold rejected_run, not_found_run, committed_run, issued,
    updated, patient_fields, doctor_fields, medicine_fields,
    Service.UpdatePatientDetails.
  destruct (Sql.select_ids (u_reference_number req) db) as [|ids rest] eqn:Hsel;
    [| destruct (JS.truthy_str (u_name req) || JS.truthy_num (u_age req)
                 || JS.truthy_str (u_gender req) || JS.truthy_str (u_contact req));
       destruct (JS.truthy_str (u_doctor_name req));
       destruct (JS.truthy_str (u_medicine_name req)
                 || JS.truthy_str (u_description req)) ].
  all: run_handler; try rewrite Hsel; run_handler.
  all: unfold failures, updates_attempted; cbn.
  all: split; [reflexivity|]; split;
       [ first
           [ left; solve [repeat split; (discriminate || eauto)]
           | right; left; solve [repeat split; eauto]
           | right; right; eexists _, _; solve [repeat split; eauto] ]
       | split; [intros; (discriminate || reflexivity) | tauto] ].
Qed.

Lemma Server_update_eq req :
  Server.UpdatePatientDetails req
  = Service.UpdatePatientDetails (without_description req).
Proof.
  unfold Server.UpdatePatientDetails, Service.UpdatePatientDetails,
    without_description; cbn [u_reference_number u_name u_age u_gender
    u_contact u_doctor_name u_medicine_name u_description].
  cbn [JS.truthy_str]. rewrite orb_false_r. reflexivity.
Qed.

Lemma update_run v db faults req :
  let r := UpdatePatientDetails_of v req (arrive db faults) in
  fst r = Done tt /\
  (rejected_run db faults (snd r)
   \/ not_found_run db (seen_by v req) (snd r)
   \/ committed_run db (seen_by v req) (snd r)) /\
  (Sql.select_ids (u_reference_number req) db = [] ->
   updates_attempted (snd r) = []) /\
  (forall s, In s (updates_attempted (snd r)) -> In s (issued (seen_by v req))).
Proof.
  destruct v; cbn [UpdatePatientDetails_of seen_by].
  - apply Service_update_run.
  - rewrite Server_update_eq.
    apply (Service_update_run db faults (without_description req)).
Qed.

End UpdateRuns.

(* ================================================================== *)
(** ** What the three UPDATE statements do to the tables *)
(* ================================================================== *)

Lemma coalesce_str_or_null field stored :
  COALESCE (JS.str_or_null field) stored = new_str field stored.
Proof.
  unfold JS.str_or_null, new_str.
  destruct field as [s|]; cbn; [destruct (String.eqb s "")|]; reflexivity.
Qed.

Lemma coalesce_num_or_null field stored :
  COALESCE (JS.num_or_null field) stored = new_num field stored.
Proof.
  unfold JS.num_or_null, new_num.
  destruct field as [n|]; cbn; [destruct (Z.eqb n 0)|]; reflexivity.
Qed.

Lemma new_str_falsy field stored :
  JS.truthy_str field = false -> new_str field stored = stored.
Proof. unfold new_str. now intros ->. Qed.

Lemma new_num_falsy field stored :
  JS.truthy_num field = false -> new_num field stored = stored.
Proof. unfold new_num. now intros ->. Qed.

Lemma new_str_truthy field stored :
  JS.truthy_str field = true -> new_str field stored = field.
Proof. unfold new_str. now intros ->. Qed.

Section UpdatedTables.
Context {C : Collation}.
Variables (req : UpdateRequest) (ids : prescription_reference) (db : DB).

Lemma updated_reference_tbl :
  reference_tbl (updated req ids db) = reference_tbl db.
Proof.
  unfold updated.
  destruct (patient_fields req), (doctor_fields req), (medicine_fields req);
    reflexivity.
Qed.

Lemma updated_patient_tbl :
  patient_tbl (updated req ids db)
  = map (fun p =>
           if Z.eqb (p_id p) (patient_id ids)
           then mkPatient (p_id p)
                  (new_str (u_name req) (p_name p))
                  (new_num (u_age req) (p_age p))
                  (new_str (u_gender req) (p_gender p))
                  (new_str (u_contact req) (p_contact p))
           else p)
        (patient_tbl db).
Proof.
  assert (E : patient_tbl (updated req ids db)
              = patient_tbl
                  (if patient_fields req
                   then Sql.update_patient (patient_id ids)
                          (JS.str_or_null (u_name req)) (JS.num_or_null (u_age req))
                          (JS.str_or_null (u_gender req))
                          (JS.str_or_null (u_contact req)) db
                   else db)).
  { unfold updated.
    destruct (patient_fields req), (doctor_fields req), (medicine_fields req);
      reflexivity. }
  rewrite E; clear E.
  destruct (patient_fields req) eqn:G.
  - cbn. apply map_ext; intros p.
    now rewrite !coalesce_str_or_null, coalesce_num_or_null.
  - unfold patient_fields in G.
    apply orb_false_iff in G as [G Hc].
    apply orb_false_iff in G as [G Hg].
    apply orb_false_iff in G as [Hn Ha].
    rewrite <- (map_id (patient_tbl db)) at 1.
    apply map_ext; intros p.
    rewrite !new_str_falsy, new_num_falsy by assumption.
    destruct p; cbn. now destruct (Z.eqb _ _).
Qed.

Lemma updated_doctor_tbl :
  doctor_tbl (updated req ids db)
  = map (fun d =>
           if Z.eqb (d_id d) (doctor_id ids)
           then mkDoctor (d_id d) (new_str (u_doctor_name req) (d_name d))
           else d)
        (doctor_tbl db).
Proof.
  assert (E : doctor_tbl (updated req ids db)
              = doctor_tbl
                  (if doctor_fields req
                   then Sql.update_doctor (doctor_id ids) (u_doctor_name req) db
                   else db)).
  { unfold updated.
    destruct (patient_fields req), (doctor_fields req), (medicine_fields req);
      reflexivity. }
  rewrite E; clear E.
  destruct (doctor_fields req) eqn:G; unfold doctor_fields in G.
  - cbn. apply map_ext; intros d. now rewrite new_str_truthy.
  - rewrite <- (map_id (doctor_tbl db)) at 1.
    apply map_ext; intros d.
    rewrite new_str_falsy by assumption.
    destruct d; cbn. now destruct (Z.eqb _ _).
Qed.

Lemma updated_medicine_tbl :
  medicine_tbl (updated req ids db)
  = map (fun m =>
           if Z.eqb (m_id m) (medicine_id ids)
           then mkMedicine (m_id m)
                  (new_str (u_medicine_name req) (m_name m))
                  (new_str (u_description req) (m_description m))
           else m)
        (medicine_tbl db).
Proof.
  assert (E : medicine_tbl (updated req ids db)
              = medicine_tbl
                  (if medicine_fields req
                   then Sql.update_medicine (medicine_id ids)
                          (JS.str_or_null (u_medicine_name req))
                          (JS.str_or_null (u_description req)) db
                   else db)).
  { unfold updated.
    destruct (patient_fields req), (doctor_fields req), (medicine_fields req);
      reflexivity. }
  rewrite E; clear E.
  destruct (medicine_fields req) eqn:G.
  - cbn. apply map_ext; intros m. now rewrite !coalesce_str_or_null.
  - unfold medicine_fields in G. apply orb_false_iff in G as [Hn Hd].
    rewrite <- (map_id (medicine_tbl db)) at 1.
    apply map_ext; intros m.
    rewrite !new_str_falsy by assumption.
    destruct m; cbn. now destruct (Z.eqb _ _).
Qed.

End UpdatedTables.

(* ================================================================== *)
(** ** Facts about logs *)
(* ================================================================== *)

Lemma succeeded_no_failure s l : ~ In (s, false) (succeeded l).
Proof.
  unfold succeeded. rewrite in_map_iff. intros (x & E & _). discriminate.
Qed.

Lemma rollback_follows_spec l s :
  rollback_follows l = true ->
  in_transaction s = true ->
  In (s, false) l ->
  exists pre b post, l = pre ++ (s, false) :: (ROLLBACK, b) :: post.
Proof.
  induction l as [|[s' ok] l IH]; intros Hr Hs Hin; [destruct Hin|].
  cbn [rollback_follows] in Hr. apply andb_true_iff in Hr as [Hhd Htl].
  destruct Hin as [E|Hin].
  - inversion E; subst s' ok. cbn [negb andb] in Hhd. rewrite Hs in Hhd.
    destruct l as [|[[] b] post]; try discriminate.
    now exists [], b, post.
  - destruct (IH Htl Hs Hin) as (pre & b & post & ->).
    now exists ((s', ok) :: pre), b, post.
Qed.

Lemma commit_succeeded_false l :
  commit_succeeded l = false -> ~ In (COMMIT, true) l.
Proof.
  unfold commit_succeeded. intros H Hin.
  assert (existsb (fun e : Stmt * bool =>
            match e with (COMMIT, true) => true | _ => false end) l = true)
    by (apply existsb_exists; now exists (COMMIT, true)).
  congruence.
Qed.

Lemma fault_free_not_rejected db faults w :
  fault_free faults = true -> ~ rejected_run db faults w.
Proof. intros H (H' & _). congruence. Qed.

Lemma seen_by_reference v req :
  u_reference_number (seen_by v req) = u_reference_number req.
Proof. now destruct v. Qed.

Lemma Forall2_map_r {A} (R : A -> A -> Prop) (f : A -> A) l :
  (forall x, R x (f x)) -> Forall2 R l (map f l).
Proof. intros H. induction l; cbn; constructor; auto. Qed.

Lemma Forall2_same {A} (R : A -> A -> Prop) l :
  (forall x, R x x) -> Forall2 R l l.
Proof. intros H. induction l; constructor; auto. Qed.

Section UpdateClaims.
Context {C : Collation}.

Lemma committed_cases v db faults req :
  let w := snd (UpdatePatientDetails_of v req (arrive db faults)) in
  committed w = db
  \/ exists ids rest,
       Sql.select_ids (u_reference_number req) db = ids :: rest
       /\ committed w = updated (seen_by v req) ids db.
Proof.
  intros w; subst w.
  destruct (update_run v db faults req) as (_ & Hrun & _).
  destruct Hrun as [(_ & _ & _ & Hdb & _) | [(_ & _ & _ & Hdb) | Hok]];
    [now left | now left |].
  destruct Hok as (ids & rest & Hsel & _ & _ & Hdb).
  rewrite seen_by_reference in Hsel. right. now exists ids, rest.
Qed.

(** C1.  When the id lookup or one of the UPDATE statements of
    UpdatePatientDetails rejects, the very next operation is a ROLLBACK,
    no COMMIT succeeds, the committed database is the one the call
    found and the callback receives one INTERNAL error.  Whatever
    happens, the committed database is in the end either the one the
    call found or the one with every update the request asks for:
    never a part of them. *)
Theorem update_failure_rolls_back v db faults req :
  let w := snd (UpdatePatientDetails_of v req (arrive db faults)) in
  (forall s,
      in_transaction s = true ->
      In (s, false) (log w) ->
      (exists pre b post, log w = pre ++ (s, false) :: (ROLLBACK, b) :: post)
      /\ ~ In (COMMIT, true) (log w)
      /\ committed w = db
      /\ exists err, replies w = [Err INTERNAL ("Database error: " ++ err)])
  /\ (committed w = db
      \/ exists ids rest,
           Sql.select_ids (u_reference_number req) db = ids :: rest
           /\ committed w = updated (seen_by v req) ids db).
Proof.
  intros w; subst w.
  destruct (update_run v db faults req) as (_ & Hrun & _).
  split.
  - intros s Hs Hin.
    destruct Hrun as [(_ & _ & Hrep & Hdb & Hrb & Hc) | [Hnf | Hok]].
    + repeat split; auto using rollback_follows_spec, commit_succeeded_false.
    + destruct Hnf as (_ & Hlog & _). rewrite Hlog in Hin.
      now apply succeeded_no_failure in Hin.
    + destruct Hok as (ids & rest & _ & Hlog & _). rewrite Hlog in Hin.
      now apply succeeded_no_failure in Hin.
  - apply committed_cases.
Qed.

(** C3.  When no prescription_reference row has the reference number
    of the request, UpdatePatientDetails leaves the committed database
    as it found it and attempts no UPDATE; when no database operation
    rejects, it runs CONNECT, BEGIN, the lookup and ROLLBACK, in this
    order and nothing else, and answers NOT_FOUND. *)
Theorem unknown_reference_rolls_back v db faults req :
  Sql.select_ids (u_reference_number req) db = [] ->
  let w := snd (UpdatePatientDetails_of v req (arrive db faults)) in
  committed w = db
  /\ updates_attempted w = []
  /\ (fault_free faults = true ->
      log w = succeeded [CONNECT; BEGIN; SELECT_IDS; ROLLBACK]
      /\ replies w = [Err NOT_FOUND "Patient not found"]).
Proof.
  intros Hsel w; subst w.
  destruct (update_run v db faults req) as (_ & Hrun & Hupd & _).
  assert (Hno : ~ committed_run db (seen_by v req)
                    (snd (UpdatePatientDetails_of v req (arrive db faults)))).
  { intros (ids & rest & Hsel' & _). rewrite seen_by_reference in Hsel'.
    congruence. }
  split; [|split; [auto|]].
  - destruct Hrun as [(_ & _ & _ & Hdb & _) | [(_ & _ & _ & Hdb) | Hok]];
      [assumption | assumption | contradiction].
  - intros Hff.
    destruct Hrun as [Hrej | [(_ & Hlog & Hrep & _) | Hok]];
      [now apply fault_free_not_rejected in Hrej | now split | contradiction].
Qed.

(** C4.  UpdatePatientDetails never changes the prescription_reference
    table.  Without a matching reference it changes nothing; with one,
    every table keeps its rows and their ids, and a patient, doctor or
    medicine row whose id is not the one carried by the matched
    reference is left as it was. *)
Theorem update_frame v db faults req :
  let w := snd (UpdatePatientDetails_of v req (arrive db faults)) in
  reference_tbl (committed w) = reference_tbl db
  /\ (Sql.select_ids (u_reference_number req) db = [] -> committed w = db)
  /\ (forall ids rest,
        Sql.select_ids (u_reference_number req) db = ids :: rest ->
        Forall2 (fun p p' => p_id p' = p_id p
                             /\ (p_id p <> patient_id ids -> p' = p))
                (patient_tbl db) (patient_tbl (committed w))
        /\ Forall2 (fun d d' => d_id d' = d_id d
                                /\ (d_id d <> doctor_id ids -> d' = d))
                   (doctor_tbl db) (doctor_tbl (committed w))
        /\ Forall2 (fun m m' => m_id m' = m_id m
                                /\ (m_id m <> medicine_id ids -> m' = m))
                   (medicine_tbl db) (medicine_tbl (committed w))).
Proof.
  intros w; subst w.
  destruct (committed_cases v db faults req) as [-> | (ids & rest & Hsel & ->)].
  - repeat split; auto; intros; repeat split; now apply Forall2_same.
  - split; [apply updated_reference_tbl|].
    split; [congruence|].
    intros ids' rest' Hsel'. rewrite Hsel in Hsel'. inversion Hsel'; subst ids' rest'.
    rewrite updated_patient_tbl, updated_doctor_tbl, updated_medicine_tbl.
    repeat split; apply Forall2_map_r; intros x;
      match goal with
      | |- context [Z.eqb ?a ?b] => destruct (Z.eqb_spec a b)
      end; cbn; split; congruence.
Qed.

(** C10.  A request that carries only the reference number of an
    existing reference attempts no UPDATE and leaves the committed
    database as it found it; when no database operation rejects, the
    transaction is nevertheless begun and committed and the answer is
    success = true. *)
Theorem reference_only_update_is_identity v db faults ref ids rest :
  Sql.select_ids ref db = ids :: rest ->
  let w := snd (UpdatePatientDetails_of v (reference_only ref) (arrive db faults)) in
  committed w = db
  /\ updates_attempted w = []
  /\ (fault_free faults = true ->
      log w = succeeded [CONNECT; BEGIN; SELECT_IDS; COMMIT]
      /\ replies w = [Ok (Success true)]).
Proof.
  intros Hsel w; subst w.
  destruct (update_run v db faults (reference_only ref)) as (_ & Hrun & _ & Hupd).
  assert (Hiss : issued (seen_by v (reference_only ref)) = [])
    by now destruct v.
  assert (Hdb : forall i, updated (seen_by v (reference_only ref)) i db = db)
    by now destruct v.
  rewrite Hiss in Hupd.
  split; [|split].
  - destruct (committed_cases v db faults (reference_only ref))
      as [E | (i & r & _ & E)]; rewrite E; auto.
  - destruct (updates_attempted _) as [|s l]; [reflexivity|].
    destruct (Hupd s). now left.
  - intros Hff.
    destruct Hrun as [Hrej | [(Hnone & _) | (i & r & _ & Hlog & Hrep & _)]].
    + now apply fault_free_not_rejected in Hrej.
    + rewrite seen_by_reference in Hnone. cbn in Hnone. congruence.
    + rewrite Hiss in Hlog. now split.
Qed.

(** C2, amended.  When the reference number matches a
    prescription_reference row and no database operation rejects,
    UpdatePatientDetails answers success = true, and in the patient,
    doctor and medicine rows the first matching reference carries,
    every column whose input field is truthy (a non-empty string, an
    age other than 0) holds the field and every column whose field is
    missing or falsy holds its stored value; in [src/grpc/server.js]
    description is not an input and keeps its stored value.  All other
    rows and the prescription_reference table are unchanged. *)
Theorem truthy_fields_replace_stored_values v db faults req ids rest :
  fault_free faults = true ->
  Sql.select_ids (u_reference_number req) db = ids :: rest ->
  let w := snd (UpdatePatientDetails_of v req (arrive db faults)) in
  let seen := seen_by v req in
  replies w = [Ok (Success true)]
  /\ patient_tbl (committed w)
     = map (fun p =>
              if Z.eqb (p_id p) (patient_id ids)
              then mkPatient (p_id p)
                     (new_str (u_name seen) (p_name p))
                     (new_num (u_age seen) (p_age p))
                     (new_str (u_gender seen) (p_gender p))
                     (new_str (u_contact seen) (p_contact p))
              else p)
           (patient_tbl db)
  /\ doctor_tbl (committed w)
     = map (fun d =>
              if Z.eqb (d_id d) (doctor_id ids)
              then mkDoctor (d_id d) (new_str (u_doctor_name seen) (d_name d))
              else d)
           (doctor_tbl db)
  /\ medicine_tbl (committed w)
     = map (fun m =>
              if Z.eqb (m_id m) (medicine_id ids)
              then mkMedicine (m_id m)
                     (new_str (u_medicine_name seen) (m_name m))
                     (new_str (u_description seen) (m_description m))
              else m)
           (medicine_tbl db)
  /\ reference_tbl (committed w) = reference_tbl db.
Proof.
  intros Hff Hsel w seen; subst w seen.
  destruct (update_run v db faults req) as (_ & Hrun & _).
  destruct Hrun as [Hrej | [(Hnone & _) | (i & r & Hsel' & _ & Hrep & Hdb)]].
  - now apply fault_free_not_rejected in Hrej.
  - rewrite seen_by_reference in Hnone. congruence.
  - rewrite seen_by_reference in Hsel'. rewrite Hsel in Hsel'.
    inversion Hsel'; subst i r. rewrite Hdb.
    rewrite updated_patient_tbl, updated_doctor_tbl, updated_medicine_tbl,
      updated_reference_tbl.
    now repeat split.
Qed.

End UpdateClaims.

(* ================================================================== *)
(** ** Falsy fields *)
(* ================================================================== *)

Lemma truthy_str_or_null x : JS.truthy_str (JS.str_or_null x) = JS.truthy_str x.
Proof.
  unfold JS.str_or_null. destruct (JS.truthy_str x) eqn:E; [exact E | reflexivity].
Qed.

Lemma truthy_num_or_null x : JS.truthy_num (JS.num_or_null x) = JS.truthy_num x.
Proof.
  unfold JS.num_or_null. destruct (JS.truthy_num x) eqn:E; [exact E | reflexivity].
Qed.

Lemma str_or_null_idem x : JS.str_or_null (JS.str_or_null x) = JS.str_or_null x.
Proof.
  unfold JS.str_or_null.
  destruct (JS.truthy_str x) eqn:E; cbn; now rewrite ?E.
Qed.

Lemma num_or_null_idem x : JS.num_or_null (JS.num_or_null x) = JS.num_or_null x.
Proof.
  unfold JS.num_or_null.
  destruct (JS.truthy_num x) eqn:E; cbn; now rewrite ?E.
Qed.

Lemma str_or_null_truthy x : JS.truthy_str x = true -> JS.str_or_null x = x.
Proof. unfold JS.str_or_null. now intros ->. Qed.

Lemma new_str_empty field stored :
  new_str field stored = Some "" -> stored = Some "".
Proof.
  unfold new_str. destruct field as [s|]; cbn; [|auto].
  destruct (String.eqb_spec s ""); cbn; [auto | congruence].
Qed.

Lemma new_num_zero field stored :
  new_num field stored = Some 0 -> stored = Some 0.
Proof.
  unfold new_num. destruct field as [n|]; cbn; [|auto].
  destruct (Z.eqb_spec n 0); cbn; [auto | congruence].
Qed.

Section Falsy.
Context {C : Collation}.

Lemma Service_update_drop_falsy req :
  Service.UpdatePatientDetails (drop_falsy req) = Service.UpdatePatientDetails req.
Proof.
  unfold Service.UpdatePatientDetails, drop_falsy;
    cbn [u_reference_number u_name u_age u_gender u_contact u_doctor_name
         u_medicine_name u_description].
  rewrite !truthy_str_or_null, !truthy_num_or_null, !str_or_null_idem,
    !num_or_null_idem.
  destruct (JS.truthy_str (u_doctor_name req)) eqn:E; [|reflexivity].
  now rewrite (str_or_null_truthy _ E).
Qed.

Lemma update_drop_falsy v req :
  UpdatePatientDetails_of v (drop_falsy req) = UpdatePatientDetails_of v req.
Proof.
  destruct v; cbn [UpdatePatientDetails_of].
  - apply Service_update_drop_falsy.
  - rewrite !Server_update_eq.
    rewrite <- (Service_update_drop_falsy (without_description (drop_falsy req))),
      <- (Service_update_drop_falsy (without_description req)).
    f_equal. unfold drop_falsy, without_description;
      cbn [u_reference_number u_name u_age u_gender u_contact u_doctor_name
           u_medicine_name u_description].
    now rewrite !str_or_null_idem, num_or_null_idem.
Qed.

(** C9.  UpdatePatientDetails runs on a request exactly as on the same
    request with every falsy optional field (age 0, an empty name,
    gender, contact, doctor_name, medicine_name or description)
    removed.  So an age of 0 or an empty text found in a row after the
    call was stored there before it. *)
Theorem falsy_field_is_missing v db faults req :
  let w := snd (UpdatePatientDetails_of v req (arrive db faults)) in
  UpdatePatientDetails_of v req (arrive db faults)
  = UpdatePatientDetails_of v (drop_falsy req) (arrive db faults)
  /\ Forall2 (fun p p' =>
                (p_name p' = Some "" -> p_name p = Some "")
                /\ (p_age p' = Some 0 -> p_age p = Some 0)
                /\ (p_gender p' = Some "" -> p_gender p = Some "")
                /\ (p_contact p' = Some "" -> p_contact p = Some ""))
             (patient_tbl db) (patient_tbl (committed w))
  /\ Forall2 (fun d d' => d_name d' = Some "" -> d_name d = Some "")
             (doctor_tbl db) (doctor_tbl (committed w))
  /\ Forall2 (fun m m' =>
                (m_name m' = Some "" -> m_name m = Some "")
                /\ (m_description m' = Some "" -> m_description m = Some ""))
             (medicine_tbl db) (medicine_tbl (committed w)).
Proof.
  intros w; subst w. split; [now rewrite update_drop_falsy|].
  destruct (committed_cases v db faults req) as [-> | (ids & rest & _ & ->)].
  - repeat split; apply Forall2_same; tauto.
  - rewrite updated_patient_tbl, updated_doctor_tbl, updated_medicine_tbl.
    repeat split; apply Forall2_map_r; intros x;
      match goal with
      | |- context [Z.eqb ?a ?b] => destruct (Z.eqb a b)
      end; cbn; repeat split; eauto using new_str_empty, new_num_zero.
Qed.

End Falsy.

(* ================================================================== *)
(** ** Referential integrity *)
(* ================================================================== *)

Lemma exactly_one_keys {A} (id_of : A -> Z) tbl tbl' k :
  map id_of tbl' = map id_of tbl ->
  exactly_one id_of tbl k -> exactly_one id_of tbl' k.
Proof.
  unfold exactly_one. intros E H.
  assert (L : forall l : list A,
             List.length (filter (fun r => Z.eqb (id_of r) k) l)
             = List.length (filter (fun i => Z.eqb i k) (map id_of l))).
  { induction l as [|a l IH]; cbn; [reflexivity|].
    destruct (Z.eqb (id_of a) k); cbn; now rewrite IH. }
  now rewrite L, E, <- L.
Qed.

Lemma same_keys_refl db : same_keys db db.
Proof. now repeat split. Qed.

Lemma same_keys_integrity db db' :
  same_keys db db' -> referential_integrity db -> referential_integrity db'.
Proof.
  unfold referential_integrity. intros (Hp & Hd & Hm & ->).
  apply Forall_impl. intros pr (H1 & H2 & H3).
  repeat split; eauto using exactly_one_keys.
Qed.

Section Integrity.
Context {C : Collation}.

Lemma updated_same_keys req ids db : same_keys db (updated req ids db).
Proof.
  unfold same_keys.
  rewrite updated_patient_tbl, updated_doctor_tbl, updated_medicine_tbl,
    updated_reference_tbl, !map_map.
  repeat split; apply map_ext; intros x;
    match goal with
    | |- context [Z.eqb ?a ?b] => now destruct (Z.eqb a b)
    end.
Qed.

Lemma update_same_keys v db faults req :
  same_keys db (committed (snd (UpdatePatientDetails_of v req (arrive db faults)))).
Proof.
  destruct (committed_cases v db faults req) as [-> | (ids & rest & _ & ->)];
    auto using same_keys_refl, updated_same_keys.
Qed.

Variable paged : Z -> Z -> DB -> list PatientWithDetails.

Lemma query_leaves_db v op db faults :
  (forall req, op <> OpUpdatePatientDetails req) ->
  committed (snd (serve_of paged v op (arrive db faults))) = db.
Proof.
  intros Hop.
  destruct v, op as [ref|name|page pageSize|req|ref];
    try (now destruct (Hop req));
    cbn [serve_of Service.serve Server.serve];
    unfold Service.GetPrescription, Service.GetPatient, Service.GetAllPatients,
      Service.GetReference, Server.GetPrescription, Server.GetPatient,
      Server.GetAllPatients, Server.GetReference, Service.page_query.
  all: try destruct (Service.page_params_ok _ _).
  all: run_handler; try reflexivity.
  all: match goal with
       | |- context [match ?q with [] => _ | _ :: _ => _ end] => now destruct q
       end.
Qed.

Lemma serve_preserves_integrity v op db faults :
  referential_integrity db ->
  referential_integrity (committed (snd (serve_of paged v op (arrive db faults)))).
Proof.
  intros H.
  assert (K : same_keys db
                (committed (snd (serve_of paged v op (arrive db faults))))).
  { destruct op as [ref|name|page pageSize|req|ref];
      try (rewrite query_leaves_db by discriminate; apply same_keys_refl).
    destruct v; [apply (update_same_keys WithDescription)
                | apply (update_same_keys WithoutDescription)]. }
  exact (same_keys_integrity K H).
Qed.

(** C5.  From a database in which every prescription_reference row
    references exactly one patient, one doctor and one medicine row,
    each of GetPrescription, GetPatient, GetAllPatients,
    UpdatePatientDetails and GetReference, with or without failures,
    leaves a committed database with the same property; so does every
    sequence of them. *)
Theorem operations_preserve_integrity v db :
  referential_integrity db ->
  (forall op faults,
      referential_integrity
        (committed (snd (serve_of paged v op (arrive db faults)))))
  /\ (forall requests, referential_integrity (serve_all paged v requests db)).
Proof.
  intros H. split.
  - intros. now apply serve_preserves_integrity.
  - intros requests. revert db H.
    induction requests as [|[op faults] later IH]; intros db H; cbn.
    + exact H.
    + apply IH. now apply serve_preserves_integrity.
Qed.

End Integrity.

(* ================================================================== *)
(** ** Lookups *)
(* ================================================================== *)

Lemma filter_nil_iff {A} (f : A -> bool) l :
  filter f l = [] <-> forall x, In x l -> f x = false.
Proof.
  induction l as [|a l IH]; cbn; [tauto|].
  destruct (f a) eqn:E; split.
  - discriminate.
  - intros H. specialize (H a (or_introl eq_refl)). congruence.
  - intros H x [<-|Hin]; [assumption | now apply IH].
  - intros H. apply IH. auto.
Qed.

Lemma lookup_outcome_iff q msg (P Q : Prop) w :
  (P <-> Q) -> lookup_outcome q msg P w -> lookup_outcome q msg Q w.
Proof. unfold lookup_outcome. intros E. tauto. Qed.

Ltac lookup_leaf :=
  unfold lookup_outcome, failures; cbn;
  repeat split; intros;
  repeat match goal with
         | H : _ /\ _ |- _ => destruct H
         | H : exists _, _ |- _ => destruct H
         | H : _ \/ _ |- _ => destruct H
         | H : Err _ _ = Err _ _ |- _ => inversion H; clear H; subst
         end;
  try discriminate; try congruence; try tauto; eauto.

Section Lookups.
Context {C : Collation}.

Lemma GetPatient_outcome v db faults name :
  lookup_outcome SELECT_PATIENT "Patient not found"
    (Sql.select_patient name db = [])
    (snd (GetPatient_of v name (arrive db faults))).
Proof.
  destruct v; cbn [GetPatient_of];
    unfold Service.GetPatient, Server.GetPatient.
  all: destruct (Sql.select_patient name db) as [|row rest] eqn:Hsel.
  all: run_handler; rewrite ?Hsel; world_simpl.
  all: lookup_leaf.
Qed.

Lemma GetPrescription_outcome v db faults ref_no :
  lookup_outcome SELECT_PRESCRIPTION "Prescription not found"
    (Sql.select_prescription ref_no db = [])
    (snd (GetPrescription_of v ref_no (arrive db faults))).
Proof.
  destruct v; cbn [GetPrescription_of];
    unfold Service.GetPrescription, Server.GetPrescription.
  all: destruct (Sql.select_prescription ref_no db) as [|row rest] eqn:Hsel.
  all: run_handler; rewrite ?Hsel; world_simpl.
  all: lookup_leaf.
Qed.

Lemma GetReference_outcome v db faults ref_no :
  lookup_outcome SELECT_REFERENCE "No reference found"
    (Sql.select_reference ("%" ++ ref_no ++ "%") db = [])
    (snd (GetReference_of v ref_no (arrive db faults))).
Proof.
  destruct v; cbn [GetReference_of];
    unfold Service.GetReference, Server.GetReference.
  all: destruct (Sql.select_reference ("%" ++ ref_no ++ "%") db)
         as [|row rest] eqn:Hsel.
  all: run_handler; rewrite ?Hsel; world_simpl.
  all: lookup_leaf.
Qed.

(** The rows of the join and the rows of prescription_reference *)

Lemma join_one_ref db pr j : In j (Sql.join_one db pr) -> Sql.j_ref j = pr.
Proof.
  unfold Sql.join_one. rewrite in_flat_map. intros (p & _ & H).
  rewrite in_flat_map in H. destruct H as (d & _ & H).
  rewrite in_map_iff in H. now destruct H as (m & <- & _).
Qed.

Lemma exactly_one_found {A} (id_of : A -> Z) tbl k :
  exactly_one id_of tbl k ->
  exists r rest, filter (fun r => Z.eqb k (id_of r)) tbl = r :: rest.
Proof.
  unfold exactly_one.
  rewrite (filter_ext (fun r => Z.eqb (id_of r) k) (fun r => Z.eqb k (id_of r)))
    by (intros; apply Z.eqb_sym).
  destruct (filter _ tbl) as [|r rest]; [discriminate | eauto].
Qed.

Lemma join_one_inhabited db pr :
  exactly_one p_id (patient_tbl db) (patient_id pr) ->
  exactly_one d_id (doctor_tbl db) (doctor_id pr) ->
  exactly_one m_id (medicine_tbl db) (medicine_id pr) ->
  exists j, In j (Sql.join_one db pr).
Proof.
  intros Hp Hd Hm.
  destruct (exactly_one_found Hp) as (p & ps & Ep).
  destruct (exactly_one_found Hd) as (d & ds & Ed).
  destruct (exactly_one_found Hm) as (m & ms & Em).
  exists (Sql.mkJoined pr p d m).
  unfold Sql.join_one. rewrite Ep, Ed, Em. cbn. now left.
Qed.

Lemma join_matches_references db ref :
  referential_integrity db ->
  (forall j, In j (Sql.join_all db) ->
             sql_eqb (reference_number (Sql.j_ref j)) ref = false)
  <-> (forall pr, In pr (reference_tbl db) ->
                  sql_eqb (reference_number pr) ref = false).
Proof.
  intros Hri. unfold Sql.join_all. split.
  - intros H pr Hin.
    unfold referential_integrity in Hri. rewrite Forall_forall in Hri.
    destruct (Hri pr Hin) as (Hp & Hd & Hm).
    destruct (join_one_inhabited db pr Hp Hd Hm) as (j & Hj).
    rewrite <- (join_one_ref _ _ _ Hj). apply H.
    apply in_flat_map. now exists pr.
  - intros H j Hj. apply in_flat_map in Hj as (pr & Hin & Hj).
    rewrite (join_one_ref _ _ _ Hj). now apply H.
Qed.

End Lookups.

(* ================================================================== *)
(** ** Pages *)
(* ================================================================== *)

Lemma ceil_div_spec a b :
  1 <= b ->
  (Service.ceil_div a b - 1) * b < a <= Service.ceil_div a b * b.
Proof.
  intros Hb. unfold Service.ceil_div.
  pose proof (Z.div_mod (- a) b ltac:(lia)) as E.
  pose proof (Z.mod_pos_bound (- a) b ltac:(lia)) as B.
  nia.
Qed.

Section Ordering.
Context {C : Collation}.

Lemma insert_by_ref_perm j l :
  Permutation (Sql.insert_by_ref j l) (j :: l).
Proof.
  induction l as [|k l IH]; cbn; [reflexivity|].
  destruct (sql_leb _ _); [reflexivity|].
  rewrite IH. apply perm_swap.
Qed.

Lemma order_by_ref_perm l : Permutation (Sql.order_by_ref l) l.
Proof.
  induction l as [|j l IH]; cbn; [constructor|].
  rewrite insert_by_ref_perm. now constructor.
Qed.

Hypothesis sql_leb_total : forall a b, sql_leb a b = true \/ sql_leb b a = true.

Lemma insert_by_ref_sorted j l :
  ordered_by_ref l -> ordered_by_ref (Sql.insert_by_ref j l).
Proof.
  unfold ordered_by_ref.
  induction l as [|k l IH]; cbn; intros Hs.
  - repeat constructor.
  - destruct (sql_leb (reference_number (Sql.j_ref j))
                      (reference_number (Sql.j_ref k))) eqn:E.
    + constructor; [assumption | now constructor].
    + inversion Hs as [|? ? Hl Hhd]; subst.
      constructor; [now apply IH|].
      assert (Hkj : sql_leb (reference_number (Sql.j_ref k))
                            (reference_number (Sql.j_ref j)) = true)
        by (destruct (sql_leb_total (reference_number (Sql.j_ref k))
                        (reference_number (Sql.j_ref j))); congruence).
      destruct l as [|k' l]; cbn.
      * now constructor.
      * destruct (sql_leb (reference_number (Sql.j_ref j))
                          (reference_number (Sql.j_ref k'))).
        -- now constructor.
        -- inversion Hhd; subst. now constructor.
Qed.

Lemma order_by_ref_sorted l : ordered_by_ref (Sql.order_by_ref l).
Proof.
  induction l as [|j l IH]; cbn.
  - constructor.
  - now apply insert_by_ref_sorted.
Qed.

End Ordering.

Section Pages.
Context {C : Collation}.

Lemma page_params_ok_spec offset pageSize :
  Service.page_params_ok offset pageSize = true
  <-> 0 <= offset <= 2147483647 /\ 1 <= pageSize <= 2147483647.
Proof.
  unfold Service.page_params_ok, Service.sql_int.
  rewrite !andb_true_iff, !Z.leb_le. lia.
Qed.

End Pages.

(* ================================================================== *)
(** ** The resolvers *)
(* ================================================================== *)

(** C7.  Each resolver, whenever it runs, makes exactly one remote call,
    with the arguments of the request, and settles from the callback
    of that call alone: rejected with its error, or resolved with its
    response (getAllPatients with the patients of the response or the
    empty list, updatePatientDetails with its success flag). *)
Theorem resolvers_relay_one_call (remote : Bff.Remote) (n : nat) :
  (forall name,
      Bff.run_from n remote (Bff.getPatient name)
      = ([Bff.made (Bff.GetPatient name)],
         match remote _ n (Bff.GetPatient name) with
         | inl err => Bff.Rejected err
         | inr response => Bff.Resolved response
         end))
  /\ (forall page pageSize,
        Bff.run_from n remote (Bff.getAllPatients page pageSize)
        = ([Bff.made (Bff.GetAllPatients page pageSize)],
           match remote _ n (Bff.GetAllPatients page pageSize) with
           | inl err => Bff.Rejected err
           | inr response =>
               Bff.Resolved match Bff.patients response with
                            | Some l => l
                            | None => []
                            end
           end))
  /\ (forall ref_no,
        Bff.run_from n remote (Bff.getPrescription ref_no)
        = ([Bff.made (Bff.GetPrescription ref_no)],
           match remote _ n (Bff.GetPrescription ref_no) with
           | inl err => Bff.Rejected err
           | inr response => Bff.Resolved response
           end))
  /\ (forall ref_no,
        Bff.run_from n remote (Bff.getReference ref_no)
        = ([Bff.made (Bff.GetReference ref_no)],
           match remote _ n (Bff.GetReference ref_no) with
           | inl err => Bff.Rejected err
           | inr response => Bff.Resolved response
           end))
  /\ (forall args,
        Bff.run_from n remote (Bff.updatePatientDetails args)
        = ([Bff.made (Bff.UpdatePatientDetails args)],
           match remote _ n (Bff.UpdatePatientDetails args) with
           | inl err => Bff.Rejected err
           | inr response => Bff.Resolved (Bff.success response)
           end)).
Proof.
  repeat split; intros; cbn;
    match goal with
    | |- context [remote ?R n ?c] => now destruct (remote R n c)
    end.
Qed.

(* ================================================================== *)
(** ** Runs on the sample database *)
(* ================================================================== *)

Lemma sample_db_integrity : referential_integrity sample_db.
Proof. repeat constructor. Qed.

(** The UPDATE of the patient row deadlocks. *)
Lemma update_failure_rolls_back_witness :
  let w := snd (Service.UpdatePatientDetails sample_update
                  (arrive sample_db [None; None; None; Some "deadlock"])) in
  In (UPDATE_PATIENT, false) (log w)
  /\ committed w = sample_db
  /\ exists err, replies w = [Err INTERNAL ("Database error: " ++ err)].
Proof.
  intros w.
  assert (Hin : In (UPDATE_PATIENT, false) (log w))
    by (vm_compute; tauto).
  destruct (update_failure_rolls_back (C := binary_collation) WithDescription sample_db
              [None; None; None; Some "deadlock"] sample_update) as [H _].
  destruct (H UPDATE_PATIENT eq_refl Hin) as (_ & _ & Hdb & Hrep).
  repeat split; assumption.
Defined.

(** With a stored age of 30, the supplied age 0 is not stored, although
    the reference exists and the call succeeds. *)
Lemma supplied_zero_age_is_not_stored :
  let w := snd (Service.UpdatePatientDetails sample_update
                  (arrive sample_db [])) in
  Sql.select_ids (u_reference_number sample_update) sample_db
  = [mkReference "R1" 1 7 9]
  /\ u_age sample_update = Some 0
  /\ replies w = [Ok (Success true)]
  /\ map p_age (patient_tbl (committed w)) = [Some 30]
  /\ map p_age (patient_tbl (committed w)) <> [Some 0].
Proof.
  vm_compute. repeat split. discriminate.
Qed.

Lemma truthy_fields_replace_stored_values_witness :
  let w := snd (Service.UpdatePatientDetails sample_update
                  (arrive sample_db [])) in
  replies w = [Ok (Success true)]
  /\ patient_tbl (committed w)
     = [mkPatient 1 (Some "Bob") (Some 30) (Some "F") (Some "555")]
  /\ medicine_tbl (committed w) = medicine_tbl sample_db.
Proof.
  intros w.
  destruct (truthy_fields_replace_stored_values (C := binary_collation) WithDescription sample_db []
              sample_update (ids := mkReference "R1" 1 7 9) (rest := [])
              eq_refl eq_refl)
    as (Hrep & Hp & _ & Hm & _).
  split; [exact Hrep|].
  split; [exact (eq_trans Hp eq_refl) | exact (eq_trans Hm eq_refl)].
Defined.

Lemma unknown_reference_rolls_back_witness :
  let w := snd (Service.UpdatePatientDetails (reference_only "R2")
                  (arrive sample_db [])) in
  committed w = sample_db
  /\ log w = succeeded [CONNECT; BEGIN; SELECT_IDS; ROLLBACK]
  /\ replies w = [Err NOT_FOUND "Patient not found"].
Proof.
  intros w.
  destruct (unknown_reference_rolls_back (C := binary_collation) WithDescription sample_db []
              (reference_only "R2") eq_refl) as (Hdb & _ & H).
  destruct (H eq_refl) as (Hlog & Hrep).
  repeat split; assumption.
Defined.

Lemma update_frame_witness :
  let w := snd (Service.UpdatePatientDetails sample_update
                  (arrive sample_db [])) in
  reference_tbl (committed w) = reference_tbl sample_db
  /\ Forall2 (fun d d' => d_id d' = d_id d /\ (d_id d <> 7 -> d' = d))
             (doctor_tbl sample_db) (doctor_tbl (committed w)).
Proof.
  intros w.
  destruct (update_frame (C := binary_collation) WithDescription sample_db [] sample_update)
    as (Href & _ & H).
  destruct (H (mkReference "R1" 1 7 9) [] eq_refl) as (_ & Hd & _).
  split; assumption.
Defined.

Lemma reference_only_update_is_identity_witness :
  let w := snd (Server.UpdatePatientDetails (reference_only "R1")
                  (arrive sample_db [])) in
  committed w = sample_db
  /\ log w = succeeded [CONNECT; BEGIN; SELECT_IDS; COMMIT]
  /\ replies w = [Ok (Success true)].
Proof.
  intros w.
  destruct (reference_only_update_is_identity (C := binary_collation) WithoutDescription sample_db []
              "R1" (ids := mkReference "R1" 1 7 9) (rest := []) eq_refl)
    as (Hdb & _ & H).
  destruct (H eq_refl) as (Hlog & Hrep).
  repeat split; assumption.
Defined.

Lemma falsy_field_is_missing_witness :
  Service.UpdatePatientDetails sample_update (arrive sample_db [])
  = Service.UpdatePatientDetails
      (mkUpdateRequest "R1" (Some "Bob") None None None None None None)
      (arrive sample_db []).
Proof.
  exact (proj1 (falsy_field_is_missing (C := binary_collation) WithDescription sample_db [] sample_update)).
Defined.

Lemma operations_preserve_integrity_witness :
  referential_integrity
    (serve_all (fun _ _ _ => []) WithDescription
       [(OpUpdatePatientDetails sample_update, []);
        (OpGetPatient "Bob", [Some "connection lost"]);
        (OpUpdatePatientDetails sample_update, [None; None; None; Some "deadlock"])]
       sample_db).
Proof.
  apply (operations_preserve_integrity (C := binary_collation)
           (fun _ _ _ => []) WithDescription).
  repeat constructor.
Defined.

(* ================================================================== *)
(** ** Updates seen through the join *)
(* ================================================================== *)

Lemma filter_map_keys {A} (key : A -> bool) (f : A -> A) l :
  (forall x, key (f x) = key x) ->
  filter key (map f l) = map f (filter key l).
Proof.
  intros H. induction l as [|a l IH]; cbn; [reflexivity|].
  rewrite H. destruct (key a); cbn; now rewrite IH.
Qed.

Lemma flat_map_map_in {A B} (f : A -> A) (F : A -> list B) l :
  flat_map F (map f l) = flat_map (fun x => F (f x)) l.
Proof.
  induction l as [|a l IH]; cbn; [reflexivity|]. now rewrite IH.
Qed.

Lemma map_flat_map_out {A B B'} (h : B -> B') (F : A -> list B) l :
  map h (flat_map F l) = flat_map (fun x => map h (F x)) l.
Proof.
  induction l as [|a l IH]; cbn; [reflexivity|].
  now rewrite map_app, IH.
Qed.

Lemma patient_after_id req ids p : p_id (patient_after req ids p) = p_id p.
Proof. unfold patient_after. now destruct (Z.eqb _ _). Qed.

Lemma doctor_after_id req ids d : d_id (doctor_after req ids d) = d_id d.
Proof. unfold doctor_after. now destruct (Z.eqb _ _). Qed.

Lemma medicine_after_id req ids m : m_id (medicine_after req ids m) = m_id m.
Proof. unfold medicine_after. now destruct (Z.eqb _ _). Qed.

Section JoinAfter.
Context {C : Collation}.
Variables (req : UpdateRequest) (ids : prescription_reference) (db : DB).

Lemma updated_tables :
  patient_tbl (updated req ids db) = map (patient_after req ids) (patient_tbl db)
  /\ doctor_tbl (updated req ids db) = map (doctor_after req ids) (doctor_tbl db)
  /\ medicine_tbl (updated req ids db)
     = map (medicine_after req ids) (medicine_tbl db)
  /\ reference_tbl (updated req ids db) = reference_tbl db.
Proof.
  rewrite updated_patient_tbl, updated_doctor_tbl, updated_medicine_tbl,
    updated_reference_tbl.
  now repeat split.
Qed.

Lemma join_one_updated pr :
  Sql.join_one (updated req ids db) pr
  = map (joined_after req ids) (Sql.join_one db pr).
Proof.
  destruct updated_tables as (Ep & Ed & Em & _).
  unfold Sql.join_one. rewrite Ep, Ed, Em.
  rewrite !filter_map_keys
    by (intros; now rewrite ?patient_after_id, ?doctor_after_id,
                  ?medicine_after_id).
  rewrite flat_map_map_in, map_flat_map_out.
  apply flat_map_ext; intros p.
  rewrite flat_map_map_in, map_flat_map_out.
  apply flat_map_ext; intros d.
  now rewrite !map_map.
Qed.

Lemma join_all_updated :
  Sql.join_all (updated req ids db)
  = map (joined_after req ids) (Sql.join_all db).
Proof.
  unfold Sql.join_all. rewrite updated_reference_tbl, map_flat_map_out.
  apply flat_map_ext; intros pr. apply join_one_updated.
Qed.

Lemma insert_by_ref_after j l :
  Sql.insert_by_ref (joined_after req ids j) (map (joined_after req ids) l)
  = map (joined_after req ids) (Sql.insert_by_ref j l).
Proof.
  induction l as [|k l IH]; cbn; [reflexivity|].
  destruct (sql_leb _ _); cbn; [reflexivity | now rewrite IH].
Qed.

Lemma order_by_ref_after l :
  Sql.order_by_ref (map (joined_after req ids) l)
  = map (joined_after req ids) (Sql.order_by_ref l).
Proof.
  induction l as [|j l IH]; cbn; [reflexivity|].
  unfold Sql.order_by_ref in IH. now rewrite IH, insert_by_ref_after.
Qed.

Lemma select_page_updated offset pageSize :
  Sql.select_page offset pageSize (updated req ids db)
  = map (joined_after req ids) (Sql.select_page offset pageSize db).
Proof.
  unfold Sql.select_page.
  now rewrite join_all_updated, order_by_ref_after, skipn_map, firstn_map.
Qed.

Lemma select_prescription_updated ref :
  Sql.select_prescription ref (updated req ids db)
  = map (joined_after req ids) (Sql.select_prescription ref db).
Proof.
  unfold Sql.select_prescription. rewrite join_all_updated.
  now apply filter_map_keys.
Qed.

Lemma select_ids_updated ref :
  Sql.select_ids ref (updated req ids db) = Sql.select_ids ref db.
Proof. unfold Sql.select_ids. now rewrite updated_reference_tbl. Qed.

End JoinAfter.

(* ================================================================== *)
(** ** What the query handlers answer *)
(* ================================================================== *)

Ltac answer_leaf :=
  unfold rejects, fault_free; cbn [firstn forallb negb andb]; try reflexivity;
  repeat match goal with
         | |- context [forallb _ (firstn _ ?l)] => destruct l as [|[?|] ?];
             cbn [firstn forallb negb andb]
         end;
  try reflexivity.

Section Answers.
Context {C : Collation}.

Lemma GetPatient_answers v db faults name :
  answers (GetPatient_of v name) db faults
  = if rejects 2 faults then [Err INTERNAL "Database error"]
    else match Sql.select_patient name db with
         | [] => [Err NOT_FOUND "Patient not found"]
         | row :: _ => [Ok (Patient (patient_msg row))]
         end.
Proof.
  unfold answers.
  destruct v; cbn [GetPatient_of];
    unfold Service.GetPatient, Server.GetPatient.
  all: destruct (Sql.select_patient name db) as [|row rest] eqn:Hsel.
  all: run_handler; rewrite ?Hsel; world_simpl.
  all: answer_leaf.
Qed.

Lemma GetPrescription_answers v db faults ref_no :
  answers (GetPrescription_of v ref_no) db faults
  = if rejects 2 faults then [Err INTERNAL "Database error"]
    else match Sql.select_prescription ref_no db with
         | [] => [Err NOT_FOUND "Prescription not found"]
         | row :: _ => [Ok (Prescription (prescription_msg v row))]
         end.
Proof.
  unfold answers.
  destruct v; cbn [GetPrescription_of];
    unfold Service.GetPrescription, Server.GetPrescription.
  all: destruct (Sql.select_prescription ref_no db) as [|row rest] eqn:Hsel.
  all: run_handler; rewrite ?Hsel; world_simpl.
  all: answer_leaf.
Qed.

Lemma GetReference_answers v db faults ref_no :
  answers (GetReference_of v ref_no) db faults
  = if rejects 2 faults then [Err INTERNAL "Database error"]
    else match Sql.select_reference ("%" ++ ref_no ++ "%") db with
         | [] => [Err NOT_FOUND "No reference found"]
         | found => [Ok (References found)]
         end.
Proof.
  unfold answers.
  destruct v; cbn [GetReference_of];
    unfold Service.GetReference, Server.GetReference.
  all: destruct (Sql.select_reference ("%" ++ ref_no ++ "%") db)
         as [|row rest] eqn:Hsel.
  all: run_handler; rewrite ?Hsel; world_simpl.
  all: answer_leaf.
Qed.

Lemma GetAllPatients_answers db faults page pageSize :
  let ps := JS.num_or pageSize 10 in
  let offset := (JS.num_or page 1 - 1) * ps in
  let totalCount := Z.of_nat (List.length (reference_tbl db)) in
  let totalPages := Service.ceil_div totalCount ps in
  answers (Service.GetAllPatients page pageSize) db faults
  = if rejects 3 faults || negb (Service.page_params_ok offset ps)
    then [Err INTERNAL "Database error"]
    else [Ok (Patients (map (page_row totalCount totalPages)
                            (Sql.select_page offset ps db))
                       (Some totalPages))].
Proof.
  intros ps offset totalCount totalPages.
  unfold answers, Service.GetAllPatients, Service.page_query.
  fold ps offset.
  destruct (Service.page_params_ok offset ps); cbn [negb];
    rewrite ?orb_true_r, ?orb_false_r; run_handler; answer_leaf.
Qed.

End Answers.

Lemma filter_first {A} (f : A -> bool) l x rest :
  filter f l = x :: rest ->
  exists before later,
    l = before ++ x :: later
    /\ f x = true
    /\ (forall y, In y before -> f y = false)
    /\ rest = filter f later.
Proof.
  induction l as [|a l IH]; cbn; [discriminate|].
  destruct (f a) eqn:E.
  - intros H. inversion H; subst. exists [], l. repeat split; auto. intros y [].
  - intros H. destruct (IH H) as (before & later & -> & Hx & Hb & Hr).
    exists (a :: before), later. repeat split; auto.
    intros y [<-|Hy]; auto.
Qed.

Lemma filter_first_inv {A} (f : A -> bool) before x later :
  f x = true ->
  (forall y, In y before -> f y = false) ->
  filter f (before ++ x :: later) = x :: filter f later.
Proof.
  intros Hx Hb. rewrite filter_app.
  assert (E : filter f before = []) by now apply filter_nil_iff.
  rewrite E. cbn. now rewrite Hx.
Qed.

Lemma exactly_one_single {A} (id_of : A -> Z) tbl k :
  exactly_one id_of tbl k ->
  exists r, filter (fun r => Z.eqb k (id_of r)) tbl = [r]
            /\ In r tbl /\ id_of r = k.
Proof.
  unfold exactly_one.
  rewrite (filter_ext (fun r => Z.eqb (id_of r) k) (fun r => Z.eqb k (id_of r)))
    by (intros; apply Z.eqb_sym).
  destruct (filter _ tbl) as [|r [|r' l]] eqn:E; try discriminate.
  intros _. exists r.
  assert (Hin : In r (filter (fun r => Z.eqb k (id_of r)) tbl))
    by (rewrite E; now left).
  apply filter_In in Hin as [Hin Hk]. apply Z.eqb_eq in Hk.
  repeat split; auto.
Qed.

Section LookupAnswers.
Context {C : Collation}.

Lemma select_prescription_by_reference ref db :
  Sql.select_prescription ref db
  = flat_map (Sql.join_one db) (Sql.select_ids ref db).
Proof.
  unfold Sql.select_prescription, Sql.select_ids, Sql.join_all.
  induction (reference_tbl db) as [|pr l IH]; cbn; [reflexivity|].
  rewrite filter_app, IH.
  assert (E : filter (fun j => sql_eqb (reference_number (Sql.j_ref j)) ref)
                     (Sql.join_one db pr)
              = if sql_eqb (reference_number pr) ref
                then Sql.join_one db pr else []).
  { destruct (sql_eqb (reference_number pr) ref) eqn:K.
    - apply forallb_filter_id. apply forallb_forall. intros j Hj.
      now rewrite (join_one_ref _ _ _ Hj).
    - apply filter_nil_iff. intros j Hj. now rewrite (join_one_ref _ _ _ Hj). }
  rewrite E. now destruct (sql_eqb (reference_number pr) ref).
Qed.

Lemma join_one_single db pr :
  exactly_one p_id (patient_tbl db) (patient_id pr) ->
  exactly_one d_id (doctor_tbl db) (doctor_id pr) ->
  exactly_one m_id (medicine_tbl db) (medicine_id pr) ->
  exists p d m,
    Sql.join_one db pr = [Sql.mkJoined pr p d m]
    /\ In p (patient_tbl db) /\ p_id p = patient_id pr
    /\ In d (doctor_tbl db) /\ d_id d = doctor_id pr
    /\ In m (medicine_tbl db) /\ m_id m = medicine_id pr.
Proof.
  intros Hp Hd Hm.
  destruct (exactly_one_single Hp) as (p & Ep & Ip & Kp).
  destruct (exactly_one_single Hd) as (d & Ed & Id & Kd).
  destruct (exactly_one_single Hm) as (m & Em & Im & Km).
  exists p, d, m. unfold Sql.join_one. rewrite Ep, Ed, Em. cbn.
  now repeat split.
Qed.

Lemma integrity_at db pr :
  referential_integrity db -> In pr (reference_tbl db) ->
  exactly_one p_id (patient_tbl db) (patient_id pr)
  /\ exactly_one d_id (doctor_tbl db) (doctor_id pr)
  /\ exactly_one m_id (medicine_tbl db) (medicine_id pr).
Proof.
  unfold referential_integrity. rewrite Forall_forall. auto.
Qed.

Lemma select_ids_in ref db pr rest :
  Sql.select_ids ref db = pr :: rest -> In pr (reference_tbl db).
Proof.
  intros E.
  assert (H : In pr (Sql.select_ids ref db)) by (rewrite E; now left).
  unfold Sql.select_ids in H. now apply filter_In in H.
Qed.

(** X1.  GetPatient answers with a patient exactly when neither the
    connection nor the query rejects and some row has the name; the
    patient returned is then the first row of the table with that
    name, and any further rows with it are not reported. *)
Theorem GetPatient_returns_first_match v db faults name m :
  answers (GetPatient_of v name) db faults = [Ok (Patient m)]
  <-> rejects 2 faults = false
      /\ exists before p later,
           patient_tbl db = before ++ p :: later
           /\ Sql.name_matches name p = true
           /\ (forall q, In q before -> Sql.name_matches name q = false)
           /\ m = patient_msg p.
Proof.
  rewrite GetPatient_answers. unfold Sql.select_patient. split.
  - destruct (rejects 2 faults); [discriminate|].
    destruct (filter _ _) as [|row rest] eqn:E; [discriminate|].
    intros H. inversion H; subst m. split; [reflexivity|].
    destruct (filter_first _ _ E) as (before & later & Hl & Hx & Hb & _).
    now exists before, row, later.
  - intros (-> & before & p & later & Hl & Hp & Hb & ->).
    rewrite Hl, filter_first_inv; auto.
Qed.

(** X3.  A list GetReference returns is never empty; it holds, in the
    order of the table and with repetitions, the reference numbers of
    the prescription_reference rows that match the pattern, all of
    them and no other. *)
Theorem GetReference_lists_every_match v db faults ref_no found :
  answers (GetReference_of v ref_no) db faults = [Ok (References found)] ->
  found <> []
  /\ found = map reference_number
               (filter (fun pr => sql_like ("%" ++ ref_no ++ "%")
                                    (reference_number pr))
                       (reference_tbl db))
  /\ (forall r, In r found <->
                exists pr, In pr (reference_tbl db)
                           /\ reference_number pr = r
                           /\ sql_like ("%" ++ ref_no ++ "%") r = true).
Proof.
  rewrite GetReference_answers.
  destruct (rejects 2 faults); [discriminate|].
  destruct (Sql.select_reference _ db) as [|r0 l] eqn:E; [discriminate|].
  intros H. inversion H; subst found. split; [discriminate|].
  unfold Sql.select_reference in E. split; [now rewrite E|].
  intros r. rewrite <- E, in_map_iff. split.
  - intros (pr & <- & Hin). apply filter_In in Hin as [Hin Hl]. now exists pr.
  - intros (pr & Hin & <- & Hl). exists pr. split; [reflexivity|].
    apply filter_In. now split.
Qed.

Lemma first_prescription_row db ref pr rest :
  referential_integrity db ->
  Sql.select_ids ref db = pr :: rest ->
  exists p d m,
    In p (patient_tbl db) /\ p_id p = patient_id pr
    /\ In d (doctor_tbl db) /\ d_id d = doctor_id pr
    /\ In m (medicine_tbl db) /\ m_id m = medicine_id pr
    /\ Sql.select_prescription ref db
       = Sql.mkJoined pr p d m :: flat_map (Sql.join_one db) rest.
Proof.
  intros Hri Hsel.
  assert (Hin : In pr (reference_tbl db)) by (eapply select_ids_in; eauto).
  destruct (integrity_at pr Hri Hin) as (Hp & Hd & Hm).
  destruct (join_one_single db pr Hp Hd Hm)
    as (p & d & m & Ej & Ip & Kp & Id & Kd & Im & Km).
  exists p, d, m. repeat split; auto.
  rewrite select_prescription_by_reference, Hsel.
  cbn [flat_map]. now rewrite Ej.
Qed.

(** X2.  Under referential integrity, when neither the connection nor
    the query rejects, GetPrescription answers for the first
    prescription_reference row with the reference number, with the
    fields of the patient, the doctor and the medicine whose ids that
    row carries. *)
Theorem GetPrescription_returns_referenced_rows v db faults ref pr rest :
  referential_integrity db ->
  rejects 2 faults = false ->
  Sql.select_ids ref db = pr :: rest ->
  exists p d m,
    In p (patient_tbl db) /\ p_id p = patient_id pr
    /\ In d (doctor_tbl db) /\ d_id d = doctor_id pr
    /\ In m (medicine_tbl db) /\ m_id m = medicine_id pr
    /\ answers (GetPrescription_of v ref) db faults
       = [Ok (Prescription (prescription_msg v (Sql.mkJoined pr p d m)))].
Proof.
  intros Hri Hf Hsel.
  destruct (@first_prescription_row db ref pr rest Hri Hsel)
    as (p & d & m & Ip & Kp & Id & Kd & Im & Km & E).
  exists p, d, m. repeat split; auto.
  now rewrite GetPrescription_answers, Hf, E.
Qed.

End LookupAnswers.

(* ================================================================== *)
(** ** Updates followed by queries *)
(* ================================================================== *)

Lemma db_ext (a b : DB) :
  patient_tbl a = patient_tbl b -> doctor_tbl a = doctor_tbl b ->
  medicine_tbl a = medicine_tbl b -> reference_tbl a = reference_tbl b ->
  a = b.
Proof. destruct a, b; cbn; intros; subst; reflexivity. Qed.

Lemma new_str_idem field stored :
  new_str field (new_str field stored) = new_str field stored.
Proof. unfold new_str. now destruct (JS.truthy_str field). Qed.

Lemma new_num_idem field stored :
  new_num field (new_num field stored) = new_num field stored.
Proof. unfold new_num. now destruct (JS.truthy_num field). Qed.

Lemma patient_after_idem req ids p :
  patient_after req ids (patient_after req ids p) = patient_after req ids p.
Proof.
  unfold patient_after. destruct (Z.eqb (p_id p) (patient_id ids)) eqn:E; cbn;
    rewrite E; [|reflexivity].
  now rewrite !new_str_idem, new_num_idem.
Qed.

Lemma doctor_after_idem req ids d :
  doctor_after req ids (doctor_after req ids d) = doctor_after req ids d.
Proof.
  unfold doctor_after. destruct (Z.eqb (d_id d) (doctor_id ids)) eqn:E; cbn;
    rewrite E; [|reflexivity].
  now rewrite new_str_idem.
Qed.

Lemma medicine_after_idem req ids m :
  medicine_after req ids (medicine_after req ids m) = medicine_after req ids m.
Proof.
  unfold medicine_after. destruct (Z.eqb (m_id m) (medicine_id ids)) eqn:E; cbn;
    rewrite E; [|reflexivity].
  now rewrite !new_str_idem.
Qed.

Section UpdateThenQuery.
Context {C : Collation}.

Lemma updated_idem req ids db :
  updated req ids (updated req ids db) = updated req ids db.
Proof.
  destruct (updated_tables req ids (updated req ids db)) as (Ep & Ed & Em & Er).
  destruct (updated_tables req ids db) as (Ep' & Ed' & Em' & Er').
  apply db_ext.
  - rewrite Ep, Ep', map_map. apply map_ext, patient_after_idem.
  - rewrite Ed, Ed', map_map. apply map_ext, doctor_after_idem.
  - rewrite Em, Em', map_map. apply map_ext, medicine_after_idem.
  - exact Er.
Qed.

Lemma db_after_cases v db faults req :
  db_after (UpdatePatientDetails_of v req) db faults = db
  \/ exists ids rest,
       Sql.select_ids (u_reference_number req) db = ids :: rest
       /\ db_after (UpdatePatientDetails_of v req) db faults
          = updated (seen_by v req) ids db.
Proof. apply committed_cases. Qed.

Lemma update_commits v db faults req ids rest :
  fault_free faults = true ->
  Sql.select_ids (u_reference_number req) db = ids :: rest ->
  db_after (UpdatePatientDetails_of v req) db faults
  = updated (seen_by v req) ids db.
Proof.
  intros Hff Hsel. unfold db_after.
  destruct (update_run v db faults req) as (_ & Hrun & _).
  destruct Hrun as [Hrej | [(Hnone & _) | (i & r & Hsel' & _ & _ & Hdb)]].
  - now apply fault_free_not_rejected in Hrej.
  - rewrite seen_by_reference in Hnone. congruence.
  - rewrite seen_by_reference in Hsel'. rewrite Hsel in Hsel'.
    now inversion Hsel'; subst i r.
Qed.

Lemma update_not_found v db faults req :
  Sql.select_ids (u_reference_number req) db = [] ->
  db_after (UpdatePatientDetails_of v req) db faults = db.
Proof.
  intros Hsel.
  destruct (db_after_cases v db faults req) as [E | (i & r & Hsel' & _)];
    [exact E | congruence].
Qed.

(** X14.  Once UpdatePatientDetails ran without a rejection, running
    the same request again, whatever rejects this time, leaves the
    committed database as the first run left it. *)
Theorem repeated_update_changes_nothing v db faults faults' req :
  fault_free faults = true ->
  let db1 := db_after (UpdatePatientDetails_of v req) db faults in
  db_after (UpdatePatientDetails_of v req) db1 faults' = db1.
Proof.
  intros Hff db1; subst db1.
  destruct (Sql.select_ids (u_reference_number req) db) as [|ids rest] eqn:Hsel.
  - rewrite (@update_not_found v db faults req Hsel).
    now apply update_not_found.
  - rewrite (@update_commits v db faults req ids rest Hff Hsel).
    destruct (db_after_cases v (updated (seen_by v req) ids db) faults' req)
      as [E | (i & r & Hsel' & E)]; [exact E|].
    rewrite E. rewrite select_ids_updated, Hsel in Hsel'.
    inversion Hsel'; subst i r. apply updated_idem.
Qed.

Lemma prescription_msg_joined_after v req ids row :
  p_id (Sql.j_patient row) = patient_id ids ->
  d_id (Sql.j_doctor row) = doctor_id ids ->
  m_id (Sql.j_medicine row) = medicine_id ids ->
  prescription_msg v (joined_after (seen_by v req) ids row)
  = prescription_msg_after v req (prescription_msg v row).
Proof.
  intros Hp Hd Hm.
  unfold prescription_msg, prescription_msg_after, joined_after,
    patient_after, doctor_after, medicine_after; cbn.
  rewrite Hp, Hd, Hm, !Z.eqb_refl; cbn.
  now destruct v.
Qed.

(** X15.  Under referential integrity, after an UpdatePatientDetails
    that met no rejection, GetPrescription for the same reference
    number answers with the prescription as it was before, each column
    replaced by its truthy field of the request. *)
Theorem update_then_GetPrescription v db faults faults' req ids rest :
  referential_integrity db ->
  fault_free faults = true ->
  rejects 2 faults' = false ->
  Sql.select_ids (u_reference_number req) db = ids :: rest ->
  exists m,
    answers (GetPrescription_of v (u_reference_number req)) db faults'
    = [Ok (Prescription m)]
    /\ answers (GetPrescription_of v (u_reference_number req))
         (db_after (UpdatePatientDetails_of v req) db faults) faults'
       = [Ok (Prescription (prescription_msg_after v req m))].
Proof.
  intros Hri Hff Hf Hsel.
  destruct (@first_prescription_row _ db (u_reference_number req) ids rest
              Hri Hsel)
    as (p & d & m & _ & Kp & _ & Kd & _ & Km & E).
  exists (prescription_msg v (Sql.mkJoined ids p d m)). split.
  - now rewrite GetPrescription_answers, Hf, E.
  - rewrite GetPrescription_answers, Hf,
      (@update_commits v db faults req ids rest Hff Hsel).
    rewrite <- (seen_by_reference v req) at 1.
    rewrite select_prescription_updated, seen_by_reference, E.
    cbn [map]. now rewrite prescription_msg_joined_after.
Qed.

(** X16.  GetPrescription for a reference number whose rows share no
    patient, doctor or medicine with the reference that is updated
    answers the same before and after UpdatePatientDetails. *)
Theorem update_leaves_unrelated_prescriptions v db faults faults' req ref :
  (forall ids rest row,
      Sql.select_ids (u_reference_number req) db = ids :: rest ->
      In row (Sql.select_prescription ref db) ->
      p_id (Sql.j_patient row) <> patient_id ids
      /\ d_id (Sql.j_doctor row) <> doctor_id ids
      /\ m_id (Sql.j_medicine row) <> medicine_id ids) ->
  answers (GetPrescription_of v ref)
    (db_after (UpdatePatientDetails_of v req) db faults) faults'
  = answers (GetPrescription_of v ref) db faults'.
Proof.
  intros H.
  destruct (db_after_cases v db faults req) as [-> | (ids & rest & Hsel & ->)];
    [reflexivity|].
  rewrite !GetPrescription_answers, select_prescription_updated.
  rewrite (map_ext_in _ (fun row => row)), map_id; [reflexivity|].
  intros row Hin. destruct (H ids rest row Hsel Hin) as (Hp & Hd & Hm).
  unfold joined_after, patient_after, doctor_after, medicine_after.
  apply Z.eqb_neq in Hp, Hd, Hm. rewrite Hp, Hd, Hm. now destruct row.
Qed.

(** X17.  Under referential integrity and for a collation in which the
    name equals itself, after an UpdatePatientDetails with a non-empty
    name that met no rejection, GetPatient for this name answers with
    a patient of that name. *)
Theorem renamed_patient_is_found v db faults faults' req ids rest name :
  referential_integrity db ->
  fault_free faults = true ->
  rejects 2 faults' = false ->
  Sql.select_ids (u_reference_number req) db = ids :: rest ->
  u_name req = Some name -> name <> "" ->
  sql_eqb name name = true ->
  exists m stored,
    answers (GetPatient_of v name)
      (db_after (UpdatePatientDetails_of v req) db faults) faults'
    = [Ok (Patient m)]
    /\ pm_name m = Some stored /\ sql_eqb stored name = true.
Proof.
  intros Hri Hff Hf Hsel Hname Hne Hrefl.
  destruct (@first_prescription_row _ db (u_reference_number req) ids rest
              Hri Hsel)
    as (p & _ & _ & Ip & Kp & _).
  rewrite GetPatient_answers, Hf,
    (@update_commits v db faults req ids rest Hff Hsel).
  assert (Hin : In (patient_after (seen_by v req) ids p)
                   (Sql.select_patient name (updated (seen_by v req) ids db))).
  { unfold Sql.select_patient. apply filter_In. split.
    - destruct (updated_tables (seen_by v req) ids db) as (-> & _).
      now apply in_map.
    - unfold Sql.name_matches, patient_after.
      rewrite Kp, Z.eqb_refl; cbn.
      assert (E : u_name (seen_by v req) = Some name) by now destruct v.
      rewrite E. unfold new_str; cbn.
      destruct (String.eqb_spec name ""); [contradiction | exact Hrefl]. }
  destruct (Sql.select_patient name (updated (seen_by v req) ids db))
    as [|row l] eqn:E; [destruct Hin|].
  assert (Hrow : In row (Sql.select_patient name (updated (seen_by v req) ids db)))
    by (rewrite E; now left).
  unfold Sql.select_patient in Hrow. apply filter_In in Hrow as [_ Hm].
  unfold Sql.name_matches in Hm.
  destruct (p_name row) as [stored|] eqn:En; [|discriminate].
  exists (patient_msg row), stored. now repeat split.
Qed.

End UpdateThenQuery.

(* ================================================================== *)
(** ** All the pages *)
(* ================================================================== *)

Lemma flat_map_ext_seq {B} (f g : nat -> list B) l :
  (forall k, In k l -> f k = g k) -> flat_map f l = flat_map g l.
Proof.
  induction l as [|a l IH]; cbn; intros H; [reflexivity|].
  rewrite (H a) by now left. rewrite IH; auto.
Qed.

Lemma firstn_plus {A} (a b : nat) (l : list A) :
  firstn (a + b) l = firstn a l ++ firstn b (skipn a l).
Proof.
  revert l. induction a as [|a IH]; intros l; cbn; [reflexivity|].
  destruct l as [|x l]; cbn; [now rewrite firstn_nil | now rewrite IH].
Qed.

Lemma pages_concat {A} (n m : nat) (l : list A) :
  flat_map (fun k => firstn n (skipn ((k - 1) * n) l)) (seq 1 m)
  = firstn (m * n) l.
Proof.
  induction m as [|m IH]; [reflexivity|].
  rewrite seq_S, flat_map_app, IH. cbn [flat_map]. rewrite app_nil_r.
  replace (1 + m - 1)%nat with m by lia.
  replace (S m * n)%nat with (m * n + n)%nat by lia.
  now rewrite firstn_plus.
Qed.

Section Pagination.
Context {C : Collation}.

Lemma join_all_length db :
  referential_integrity db ->
  List.length (Sql.join_all db) = List.length (reference_tbl db).
Proof.
  unfold referential_integrity, Sql.join_all.
  induction 1 as [|pr l (Hp & Hd & Hm) _ IH]; cbn; [reflexivity|].
  destruct (join_one_single db pr Hp Hd Hm) as (p & d & m & -> & _).
  cbn. now rewrite IH.
Qed.

Lemma ordered_join_length db :
  referential_integrity db ->
  List.length (Sql.order_by_ref (Sql.join_all db))
  = List.length (reference_tbl db).
Proof.
  intros H. rewrite (Permutation_length (order_by_ref_perm _)).
  now apply join_all_length.
Qed.

(** X6.  GetAllPatients with a negative page or a negative pageSize
    answers INTERNAL: the offset or the row count it computes is
    refused by the page query.  (0 stands for a missing value.) *)
Theorem GetAllPatients_refuses_bad_pages db faults page pageSize :
  JS.num_or page 1 < 1 \/ JS.num_or pageSize 10 < 1 ->
  answers (Service.GetAllPatients page pageSize) db faults
  = [Err INTERNAL "Database error"].
Proof.
  intros H. rewrite GetAllPatients_answers.
  assert (E : Service.page_params_ok
                ((JS.num_or page 1 - 1) * JS.num_or pageSize 10)
                (JS.num_or pageSize 10) = false).
  { destruct (Service.page_params_ok _ _) eqn:K; [|reflexivity].
    apply page_params_ok_spec in K.
    assert (JS.num_or page 1 <> 0)
      by (destruct page as [p|]; cbn; [destruct (Z.eqb_spec p 0)|]; lia).
    nia. }
  rewrite E. cbn [negb]. now rewrite orb_true_r.
Qed.

(** X7.  Under referential integrity, when nothing rejects and the
    parameters are accepted, a page holds pageSize rows, or what is
    left of the totalCount rows after the offset; it is empty exactly
    when the page number exceeds totalPages, and the answer is then
    still a success. *)
Theorem GetAllPatients_page_length db faults page pageSize :
  let p := JS.num_or page 1 in
  let ps := JS.num_or pageSize 10 in
  let totalCount := Z.of_nat (List.length (reference_tbl db)) in
  let totalPages := Service.ceil_div totalCount ps in
  referential_integrity db ->
  rejects 3 faults = false ->
  Service.page_params_ok ((p - 1) * ps) ps = true ->
  exists rows,
    answers (Service.GetAllPatients page pageSize) db faults
    = [Ok (Patients rows (Some totalPages))]
    /\ Z.of_nat (List.length rows)
       = Z.max 0 (Z.min ps (totalCount - (p - 1) * ps))
    /\ (rows = [] <-> totalPages < p).
Proof.
  intros p ps totalCount totalPages Hri Hf Hok.
  rewrite GetAllPatients_answers. fold p ps totalCount totalPages.
  rewrite Hf, Hok. cbn [negb orb].
  eexists; split; [reflexivity|].
  apply page_params_ok_spec in Hok.
  pose proof (ceil_div_spec totalCount (b := ps) ltac:(lia)) as Hc.
  fold totalPages in Hc.
  assert (L : Z.of_nat (List.length
                 (map (page_row totalCount totalPages)
                      (Sql.select_page ((p - 1) * ps) ps db)))
              = Z.max 0 (Z.min ps (totalCount - (p - 1) * ps))).
  { unfold Sql.select_page.
    rewrite length_map, length_firstn, length_skipn, ordered_join_length by assumption.
    subst totalCount. lia. }
  split; [exact L|].
  rewrite <- length_zero_iff_nil. split; intros H.
  - rewrite H in L. cbn in L. nia.
  - apply Nat2Z.inj. rewrite L. cbn. nia.
Qed.

(** X8.  Under referential integrity, the pages 1 to totalPages of
    GetAllPatients, one after the other, are the whole join in the
    order of the reference numbers: every prescription appears on
    exactly one page. *)
Theorem pages_cover_the_join db ps :
  let totalCount := Z.of_nat (List.length (reference_tbl db)) in
  let totalPages := Service.ceil_div totalCount ps in
  referential_integrity db ->
  1 <= ps <= 2147483647 ->
  totalCount <= 2147483647 ->
  flat_map (fun k => listed (answers (Service.GetAllPatients
                                        (Some (Z.of_nat k)) (Some ps)) db []))
           (seq 1 (Z.to_nat totalPages))
  = map (page_row totalCount totalPages)
        (Sql.order_by_ref (Sql.join_all db)).
Proof.
  intros totalCount totalPages Hri Hps Htot.
  pose proof (ceil_div_spec totalCount (b := ps) ltac:(lia)) as Hc.
  fold totalPages in Hc.
  assert (Hps0 : JS.num_or (Some ps) 10 = ps)
    by (cbn; destruct (Z.eqb_spec ps 0); lia).
  rewrite (flat_map_ext_seq _
             (fun k => map (page_row totalCount totalPages)
                           (firstn (Z.to_nat ps)
                              (skipn ((k - 1) * Z.to_nat ps)
                                 (Sql.order_by_ref (Sql.join_all db)))))).
  - rewrite <- map_flat_map_out, pages_concat.
    rewrite firstn_all2; [reflexivity|].
    rewrite ordered_join_length by assumption. subst totalCount. nia.
  - intros k Hk. apply in_seq in Hk.
    assert (Hk0 : JS.num_or (Some (Z.of_nat k)) 1 = Z.of_nat k)
      by (cbn; destruct (Z.eqb_spec (Z.of_nat k) 0); lia).
    rewrite GetAllPatients_answers, Hps0, Hk0.
    fold totalCount totalPages.
    assert (Hok : Service.page_params_ok ((Z.of_nat k - 1) * ps) ps = true)
      by (apply page_params_ok_spec; nia).
    rewrite Hok. cbn [rejects firstn fault_free forallb negb orb listed].
    unfold Sql.select_page. do 3 f_equal. nia.
Qed.

End Pagination.

Lemma Forall2_maps {A B B'} (R : B -> B' -> Prop) (f : A -> B) (g : A -> B') l :
  (forall x, R (f x) (g x)) -> Forall2 R (map f l) (map g l).
Proof. intros H. induction l; cbn; constructor; auto. Qed.

Section MoreRuns.
Context {C : Collation}.

(** X18.  UpdatePatientDetails moves no row of GetAllPatients: every
    page holds after it the same reference numbers in the same order,
    with the same totalCount and totalPages. *)
Theorem update_keeps_rows_on_their_pages db faults faults' req page pageSize :
  Forall2 (fun r r' =>
             pd_reference_number r' = pd_reference_number r
             /\ pd_totalCount r' = pd_totalCount r
             /\ pd_totalPages r' = pd_totalPages r)
    (listed (answers (Service.GetAllPatients page pageSize) db faults'))
    (listed (answers (Service.GetAllPatients page pageSize)
               (db_after (Service.UpdatePatientDetails req) db faults) faults')).
Proof.
  destruct (db_after_cases WithDescription db faults req)
    as [E | (ids & rest & _ & E)];
    cbn [UpdatePatientDetails_of seen_by] in E; rewrite E.
  - apply Forall2_same. now repeat split.
  - rewrite !GetAllPatients_answers, updated_reference_tbl, select_page_updated.
    destruct (rejects 3 faults' || _); cbn [listed]; [constructor|].
    rewrite map_map. apply Forall2_maps. intros j. now repeat split.
Qed.

(** X9.  UpdatePatientDetails calls back exactly once, with
    success = true, NOT_FOUND or INTERNAL; success = true is answered
    exactly when COMMIT succeeded, and with every other answer the
    committed database is the one the call found. *)
Theorem success_is_answered_iff_committed v db faults req :
  let w := snd (UpdatePatientDetails_of v req (arrive db faults)) in
  List.length (replies w) = 1%nat
  /\ (replies w = [Ok (Success true)] <-> In (COMMIT, true) (log w))
  /\ (replies w <> [Ok (Success true)] -> committed w = db)
  /\ (forall r, In r (replies w) ->
                r = Ok (Success true)
                \/ r = Err NOT_FOUND "Patient not found"
                \/ exists err, r = Err INTERNAL ("Database error: " ++ err)).
Proof.
  intros w; subst w.
  destruct (update_run v db faults req) as (_ & Hrun & _).
  destruct Hrun as [(_ & _ & (err & Hrep) & Hdb & _ & Hc)
                   | [(_ & Hlog & Hrep & Hdb)
                     | (ids & rest & _ & Hlog & Hrep & Hdb)]];
    rewrite Hrep.
  - apply commit_succeeded_false in Hc.
    repeat split; try discriminate; try tauto.
    intros r [<-|[]]. right; right. now exists err.
  - rewrite Hlog. repeat split; try discriminate; auto.
    + cbn. intuition discriminate.
    + intros r [<-|[]]. now right; left.
  - rewrite Hlog. repeat split; auto.
    + intros _. unfold succeeded. rewrite !map_app, !in_app_iff. cbn. tauto.
    + congruence.
    + intros r [<-|[]]. now left.
Qed.

Variable paged : Z -> Z -> DB -> list PatientWithDetails.

(** X4.  GetPrescription, GetPatient, GetAllPatients and GetReference,
    in both copies and whatever rejects, leave the committed database
    as they found it, open no transaction, attempt only the connection
    and their SELECT or EXEC statements, attempt nothing after an
    operation that rejected, and call back exactly once. *)
Theorem queries_only_read v op db faults :
  (forall req, op <> OpUpdatePatientDetails req) ->
  let w := snd (serve_of paged v op (arrive db faults)) in
  committed w = db
  /\ working w = None
  /\ List.length (replies w) = 1%nat
  /\ forallb (fun e => reads_only (fst e)) (log w) = true
  /\ stops_at_rejection (log w) = true.
Proof.
  intros Hop.
  destruct v, op as [ref|name|page pageSize|req|ref];
    try (now destruct (Hop req));
    cbn [serve_of Service.serve Server.serve];
    unfold Service.GetPrescription, Service.GetPatient, Service.GetAllPatients,
      Service.GetReference, Server.GetPrescription, Server.GetPatient,
      Server.GetAllPatients, Server.GetReference, Service.page_query.
  all: try destruct (Service.page_params_ok _ _).
  all: run_handler.
  all: try match goal with
       | |- context [match ?q with [] => _ | _ :: _ => _ end] => destruct q
       end; world_simpl.
  all: repeat split; reflexivity.
Qed.

End MoreRuns.

(* ================================================================== *)
(** ** How a run of UpdatePatientDetails ends *)
(* ================================================================== *)

Section UpdateEnds.
Context {C : Collation}.

Lemma Service_update_ends db faults req :
  let w := snd (Service.UpdatePatientDetails req (arrive db faults)) in
  (working w = None \/ rollback_rejected (log w) = true)
  /\ (transaction_begun (log w) = true ->
      commit_succeeded (log w) || rollback_attempted (log w) = true)
  /\ (failures w = []
      \/ exists err,
           last_error (firstn (List.length (log w)) faults) = Some err
           /\ replies w = [Err INTERNAL ("Database error: " ++ err)])
  /\ (exists n, updates_attempted w = firstn n (issued req))
  /\ (Sql.select_ids (u_reference_number req) db = [] ->
      lookup_returned (log w) = true ->
      rollback_rejected (log w) = true ->
      exists ok,
        log w = succeeded [CONNECT; BEGIN; SELECT_IDS]
                ++ [(ROLLBACK, false); (ROLLBACK, ok)]).
Proof.
  unfold issued, patient_fields, doctor_fields, medicine_fields,
    Service.UpdatePatientDetails.
  destruct (Sql.select_ids (u_reference_number req) db) as [|ids rest] eqn:Hsel;
    [| destruct (JS.truthy_str (u_name req) || JS.truthy_num (u_age req)
                 || JS.truthy_str (u_gender req) || JS.truthy_str (u_contact req));
       destruct (JS.truthy_str (u_doctor_name req));
       destruct (JS.truthy_str (u_medicine_name req)
                 || JS.truthy_str (u_description req)) ].
  all: run_handler; try rewrite Hsel; run_handler.
  all: unfold failures, updates_attempted; cbn.
  all: split; [first [left; reflexivity | right; reflexivity]|].
  all: split; [intros; first [reflexivity | discriminate]|].
  all: split; [first [left; reflexivity | right; eexists; split; reflexivity]|].
  all: split;
       [first [exists 0%nat; reflexivity | exists 1%nat; reflexivity
              | exists 2%nat; reflexivity | exists 3%nat; reflexivity]|].
  all: intros; first [discriminate | eexists; reflexivity].
Qed.

End UpdateEnds.

Section UpdateEndings.
Context {C : Collation}.

Lemma update_ends v db faults req :
  let w := snd (UpdatePatientDetails_of v req (arrive db faults)) in
  (working w = None \/ rollback_rejected (log w) = true)
  /\ (transaction_begun (log w) = true ->
      commit_succeeded (log w) || rollback_attempted (log w) = true)
  /\ (failures w = []
      \/ exists err,
           last_error (firstn (List.length (log w)) faults) = Some err
           /\ replies w = [Err INTERNAL ("Database error: " ++ err)])
  /\ (exists n, updates_attempted w = firstn n (issued (seen_by v req)))
  /\ (Sql.select_ids (u_reference_number req) db = [] ->
      lookup_returned (log w) = true ->
      rollback_rejected (log w) = true ->
      exists ok,
        log w = succeeded [CONNECT; BEGIN; SELECT_IDS]
                ++ [(ROLLBACK, false); (ROLLBACK, ok)]).
Proof.
  destruct v; cbn [UpdatePatientDetails_of seen_by].
  - apply Service_update_ends.
  - rewrite Server_update_eq.
    apply (Service_update_ends db faults (without_description req)).
Qed.

(** X10.  UpdatePatientDetails leaves no transaction open unless a
    ROLLBACK itself rejected; a transaction that was begun is
    committed, or a ROLLBACK is attempted. *)
Theorem update_closes_its_transaction v db faults req :
  let w := snd (UpdatePatientDetails_of v req (arrive db faults)) in
  (working w = None \/ rollback_rejected (log w) = true)
  /\ (transaction_begun (log w) = true ->
      commit_succeeded (log w) = true \/ rollback_attempted (log w) = true).
Proof.
  intros w; subst w.
  destruct (update_ends v db faults req) as (H1 & H2 & _).
  split; [exact H1|]. intros Hb. apply orb_true_iff. auto.
Qed.

(** X11.  When an operation of UpdatePatientDetails rejects, the
    INTERNAL error carries the message of the last operation that
    rejected: when the ROLLBACK in the catch block rejects too, its
    message replaces the one of the failure that caused it. *)
Theorem update_reports_the_last_rejection v db faults req :
  let w := snd (UpdatePatientDetails_of v req (arrive db faults)) in
  failures w <> [] ->
  exists err,
    last_error (firstn (List.length (log w)) faults) = Some err
    /\ replies w = [Err INTERNAL ("Database error: " ++ err)].
Proof.
  intros w Hf; subst w.
  destruct (update_ends v db faults req) as (_ & _ & [H|H] & _);
    [contradiction | exact H].
Qed.

(** X13.  The UPDATE statements UpdatePatientDetails attempts are an
    initial part of those the request asks for, in the order patient,
    doctor, medicine: none is attempted out of turn or twice, and none
    that the request does not ask for. *)
Theorem updates_run_in_order v db faults req :
  let w := snd (UpdatePatientDetails_of v req (arrive db faults)) in
  exists n, updates_attempted w = firstn n (issued (seen_by v req)).
Proof.
  intros w; subst w.
  now destruct (update_ends v db faults req) as (_ & _ & _ & H & _).
Qed.

(** X12.  When no reference matches and the ROLLBACK on that path
    rejects, UpdatePatientDetails attempts ROLLBACK a second time and
    answers INTERNAL instead of NOT_FOUND; the database is unchanged. *)
Theorem rejected_rollback_hides_not_found v db faults req :
  let w := snd (UpdatePatientDetails_of v req (arrive db faults)) in
  Sql.select_ids (u_reference_number req) db = [] ->
  lookup_returned (log w) = true ->
  rollback_rejected (log w) = true ->
  (exists ok,
      log w = succeeded [CONNECT; BEGIN; SELECT_IDS]
              ++ [(ROLLBACK, false); (ROLLBACK, ok)])
  /\ (exists err, replies w = [Err INTERNAL ("Database error: " ++ err)])
  /\ committed w = db.
Proof.
  intros w Hsel Hl Hr; subst w.
  destruct (update_ends v db faults req) as (_ & _ & Hf & _ & H).
  destruct (H Hsel Hl Hr) as (ok & Hlog).
  split; [now exists ok|].
  split.
  - destruct Hf as [Hf | (err & _ & Hrep)]; [|now exists err].
    unfold failures in Hf. rewrite Hlog in Hf. discriminate.
  - exact (@update_not_found _ v db faults req Hsel).
Qed.

End UpdateEndings.

(* ================================================================== *)
(** ** The two copies of the service *)
(* ================================================================== *)

Section Copies.
Context {C : Collation}.

(** X19.  UpdatePatientDetails of [src/grpc/server.js] runs on a request
    as the other copy runs on the request without its description, so
    it never changes the description of a medicine; its
    GetPrescription answers as the other copy's, without the
    description. *)
Theorem older_copy_ignores_description req ref db faults :
  Server.UpdatePatientDetails req
  = Service.UpdatePatientDetails (without_description req)
  /\ map m_description
         (medicine_tbl (db_after (Server.UpdatePatientDetails req) db faults))
     = map m_description (medicine_tbl db)
  /\ answers (Server.GetPrescription ref) db faults
     = map forget_description (answers (Service.GetPrescription ref) db faults).
Proof.
  split; [apply Server_update_eq|]. split.
  - destruct (db_after_cases WithoutDescription db faults req)
      as [E | (ids & rest & _ & E)];
      cbn [UpdatePatientDetails_of seen_by] in E; rewrite E; [reflexivity|].
    rewrite updated_medicine_tbl, map_map. apply map_ext. intros m.
    now destruct (Z.eqb _ _).
  - change (Server.GetPrescription ref)
      with (GetPrescription_of WithoutDescription ref).
    change (Service.GetPrescription ref)
      with (GetPrescription_of WithDescription ref).
    rewrite !GetPrescription_answers.
    destruct (rejects 2 faults); [reflexivity|].
    now destruct (Sql.select_prescription ref db).
Qed.

End Copies.

(* ================================================================== *)
(** ** Runs on the database with three prescriptions *)
(* ================================================================== *)

Lemma clinic_db_integrity : referential_integrity clinic_db.
Proof. repeat constructor. Qed.

(** Of the two patients called Ann the first one is returned. *)
Lemma GetPatient_returns_first_match_witness :
  exists before p later,
    patient_tbl clinic_db = before ++ p :: later
    /\ Sql.name_matches "Ann" p = true
    /\ (forall q, In q before -> Sql.name_matches "Ann" q = false)
    /\ mkPatientMsg (Some "Ann") (Some 30) (Some "F") (Some "555")
       = patient_msg p.
Proof.
  apply (proj1 (@GetPatient_returns_first_match binary_collation
                  WithDescription clinic_db [] "Ann"
                  (mkPatientMsg (Some "Ann") (Some 30) (Some "F") (Some "555")))).
  reflexivity.
Defined.

Lemma GetReference_lists_every_match_witness :
  ["R1"; "R2"; "R3"]
  = map reference_number
      (filter (fun pr => sql_like ("%" ++ "R" ++ "%") (reference_number pr))
              (reference_tbl clinic_db))
  /\ (In "R2" ["R1"; "R2"; "R3"] <->
      exists pr, In pr (reference_tbl clinic_db)
                 /\ reference_number pr = "R2"
                 /\ sql_like ("%" ++ "R" ++ "%") "R2" = true).
Proof.
  destruct (@GetReference_lists_every_match binary_collation
              WithDescription clinic_db [] "R" ["R1"; "R2"; "R3"] eq_refl)
    as (_ & Hall & Hin).
  split; [exact Hall | exact (Hin "R2")].
Defined.

Lemma GetPrescription_returns_referenced_rows_witness :
  exists p d m,
    In p (patient_tbl clinic_db) /\ p_id p = 2
    /\ In d (doctor_tbl clinic_db) /\ d_id d = 8
    /\ In m (medicine_tbl clinic_db) /\ m_id m = 10
    /\ answers (Server.GetPrescription "R2") clinic_db []
       = [Ok (Prescription (prescription_msg WithoutDescription
                              (Sql.mkJoined (mkReference "R2" 2 8 10) p d m)))].
Proof.
  apply (@GetPrescription_returns_referenced_rows binary_collation
           WithoutDescription clinic_db [] "R2" (mkReference "R2" 2 8 10) []).
  - exact clinic_db_integrity.
  - reflexivity.
  - reflexivity.
Defined.

Lemma repeated_update_changes_nothing_witness :
  db_after (Service.UpdatePatientDetails sample_update)
    (db_after (Service.UpdatePatientDetails sample_update) clinic_db [])
    [None; None; None; Some "deadlock"]
  = db_after (Service.UpdatePatientDetails sample_update) clinic_db [].
Proof.
  apply (@repeated_update_changes_nothing binary_collation
           WithDescription clinic_db []
           [None; None; None; Some "deadlock"] sample_update).
  reflexivity.
Defined.

Lemma update_then_GetPrescription_witness :
  exists m,
    answers (Service.GetPrescription "R1") clinic_db [] = [Ok (Prescription m)]
    /\ answers (Service.GetPrescription "R1")
         (db_after (Service.UpdatePatientDetails sample_update) clinic_db [])
         []
       = [Ok (Prescription (prescription_msg_after WithDescription
                              sample_update m))].
Proof.
  apply (@update_then_GetPrescription binary_collation
           WithDescription clinic_db [] [] sample_update
           (mkReference "R1" 1 7 9) []).
  - exact clinic_db_integrity.
  - reflexivity.
  - reflexivity.
  - reflexivity.
Defined.

Lemma update_leaves_unrelated_prescriptions_witness :
  answers (Service.GetPrescription "R2")
    (db_after (Service.UpdatePatientDetails sample_update) clinic_db []) []
  = answers (Service.GetPrescription "R2") clinic_db [].
Proof.
  apply (@update_leaves_unrelated_prescriptions binary_collation
           WithDescription clinic_db [] [] sample_update "R2").
  intros ids rest row Hsel Hin.
  vm_compute in Hsel. inversion Hsel; subst ids rest.
  vm_compute in Hin. destruct Hin as [<-|[]].
  repeat split; discriminate.
Defined.

Lemma renamed_patient_is_found_witness :
  exists m stored,
    answers (Service.GetPatient "Bob")
      (db_after (Service.UpdatePatientDetails sample_update) clinic_db []) []
    = [Ok (Patient m)]
    /\ pm_name m = Some stored /\ sql_eqb stored "Bob" = true.
Proof.
  apply (@renamed_patient_is_found binary_collation
           WithDescription clinic_db [] [] sample_update
           (mkReference "R1" 1 7 9) [] "Bob").
  - exact clinic_db_integrity.
  - reflexivity.
  - reflexivity.
  - reflexivity.
  - reflexivity.
  - discriminate.
  - reflexivity.
Defined.

Lemma GetAllPatients_refuses_bad_pages_witness :
  answers (Service.GetAllPatients (Some (-1)) None) clinic_db []
  = [Err INTERNAL "Database error"].
Proof.
  apply (@GetAllPatients_refuses_bad_pages binary_collation clinic_db []
           (Some (-1)) None).
  left. cbn. lia.
Defined.

Lemma GetAllPatients_page_length_witness :
  exists rows,
    answers (Service.GetAllPatients (Some 2) (Some 2)) clinic_db []
    = [Ok (Patients rows (Some 2))]
    /\ Z.of_nat (List.length rows) = 1
    /\ (rows = [] <-> 2 < 2).
Proof.
  apply (@GetAllPatients_page_length binary_collation clinic_db []
           (Some 2) (Some 2)).
  - exact clinic_db_integrity.
  - reflexivity.
  - reflexivity.
Defined.

Lemma pages_cover_the_join_witness :
  flat_map (fun k => listed (answers (Service.GetAllPatients
                                        (Some (Z.of_nat k)) (Some 2))
                               clinic_db []))
           [1%nat; 2%nat]
  = map (page_row 3 2) (Sql.order_by_ref (Sql.join_all clinic_db)).
Proof.
  apply (@pages_cover_the_join binary_collation clinic_db 2).
  - exact clinic_db_integrity.
  - lia.
  - cbn. lia.
Defined.

Lemma success_is_answered_iff_committed_witness :
  let w := snd (Service.UpdatePatientDetails sample_update
                  (arrive clinic_db [None; None; None; None; Some "lost"])) in
  ~ In (COMMIT, true) (log w) /\ committed w = clinic_db.
Proof.
  intros w.
  destruct (@success_is_answered_iff_committed binary_collation
              WithDescription clinic_db
              [None; None; None; None; Some "lost"] sample_update)
    as (_ & Hiff & Hdb & _).
  assert (Hno : replies w <> [Ok (Success true)])
    by (intro E; vm_compute in E; discriminate E).
  split; [|exact (Hdb Hno)].
  intros Hin. apply Hno. now apply Hiff.
Defined.

Lemma queries_only_read_witness :
  let w := snd (Service.GetAllPatients None None
                  (arrive clinic_db [None; Some "timeout"])) in
  committed w = clinic_db /\ working w = None.
Proof.
  intros w.
  destruct (@queries_only_read binary_collation (fun _ _ _ => [])
              WithDescription (OpGetAllPatients None None) clinic_db
              [None; Some "timeout"]) as (H1 & H2 & _).
  - discriminate.
  - split; assumption.
Defined.

Lemma update_closes_its_transaction_witness :
  let w := snd (Service.UpdatePatientDetails sample_update
                  (arrive clinic_db [None; None; None; Some "deadlock"])) in
  commit_succeeded (log w) = true \/ rollback_attempted (log w) = true.
Proof.
  intros w.
  apply (@update_closes_its_transaction binary_collation
           WithDescription clinic_db [None; None; None; Some "deadlock"]
           sample_update).
  reflexivity.
Defined.

(** The UPDATE deadlocks and the ROLLBACK that follows finds the
    connection closed: the caller reads the second message. *)
Lemma update_reports_the_last_rejection_witness :
  let w := snd (Service.UpdatePatientDetails sample_update
                  (arrive clinic_db
                     [None; None; None; Some "deadlock"; Some "closed"])) in
  exists err,
    last_error (firstn (List.length (log w))
                  [None; None; None; Some "deadlock"; Some "closed"])
    = Some err
    /\ replies w = [Err INTERNAL ("Database error: " ++ err)].
Proof.
  intros w.
  apply (@update_reports_the_last_rejection binary_collation
           WithDescription clinic_db
           [None; None; None; Some "deadlock"; Some "closed"] sample_update).
  intro E; vm_compute in E; discriminate E.
Defined.

Lemma rejected_rollback_hides_not_found_witness :
  let w := snd (Service.UpdatePatientDetails (reference_only "R9")
                  (arrive clinic_db [None; None; None; Some "closed"])) in
  (exists ok,
      log w = succeeded [CONNECT; BEGIN; SELECT_IDS]
              ++ [(ROLLBACK, false); (ROLLBACK, ok)])
  /\ (exists err, replies w = [Err INTERNAL ("Database error: " ++ err)])
  /\ committed w = clinic_db.
Proof.
  intros w.
  apply (@rejected_rollback_hides_not_found binary_collation
           WithDescription clinic_db [None; None; None; Some "closed"]
           (reference_only "R9")); reflexivity.
Defined.

(* ================================================================== *)
(** ** The rows behind the answers, in terms of the tables *)
(* ================================================================== *)

Lemma num_or_given field default value :
  (field = Some value /\ value <> 0)
  \/ ((field = None \/ field = Some 0) /\ value = default) ->
  JS.num_or field default = value.
Proof.
  intros [(-> & Hv) | ([-> | ->] & ->)]; cbn; [|reflexivity|reflexivity].
  now destruct (Z.eqb_spec value 0).
Qed.

Section Rows.
Context {C : Collation}.

Lemma in_join_all db pr p d m :
  In (Sql.mkJoined pr p d m) (Sql.join_all db)
  <-> In pr (reference_tbl db) /\ In p (patient_tbl db)
      /\ In d (doctor_tbl db) /\ In m (medicine_tbl db)
      /\ p_id p = patient_id pr /\ d_id d = doctor_id pr
      /\ m_id m = medicine_id pr.
Proof.
  unfold Sql.join_all, Sql.join_one. rewrite in_flat_map. split.
  - intros (pr' & Hpr & H).
    rewrite in_flat_map in H. destruct H as (p' & Hp & H).
    rewrite in_flat_map in H. destruct H as (d' & Hd & H).
    rewrite in_map_iff in H. destruct H as (m' & E & Hm).
    inversion E; subst pr' p' d' m'.
    apply filter_In in Hp as [Hp Kp], Hd as [Hd Kd], Hm as [Hm Km].
    apply Z.eqb_eq in Kp, Kd, Km. now repeat split.
  - intros (Hpr & Hp & Hd & Hm & Kp & Kd & Km).
    exists pr. split; [assumption|].
    rewrite in_flat_map. exists p. split.
    { apply filter_In. split; [assumption | now apply Z.eqb_eq]. }
    rewrite in_flat_map. exists d. split.
    { apply filter_In. split; [assumption | now apply Z.eqb_eq]. }
    apply in_map. apply filter_In. split; [assumption | now apply Z.eqb_eq].
Qed.

Lemma no_joined_row_matches db s :
  (forall j, In j (Sql.join_all db) ->
             sql_eqb (reference_number (Sql.j_ref j)) s = false)
  <-> (forall pr p d m,
          In pr (reference_tbl db) -> In p (patient_tbl db) ->
          In d (doctor_tbl db) -> In m (medicine_tbl db) ->
          p_id p = patient_id pr -> d_id d = doctor_id pr ->
          m_id m = medicine_id pr ->
          sql_eqb (reference_number pr) s = false).
Proof.
  split.
  - intros H pr p d m Hpr Hp Hd Hm Kp Kd Km.
    apply (H (Sql.mkJoined pr p d m)). apply in_join_all. now repeat split.
  - intros H [pr p d m] Hj. apply in_join_all in Hj.
    destruct Hj as (Hpr & Hp & Hd & Hm & Kp & Kd & Km). cbn. eauto.
Qed.

Lemma no_patient_has_name db s :
  (forall p, In p (patient_tbl db) -> Sql.name_matches s p = false)
  <-> (forall p n, In p (patient_tbl db) -> p_name p = Some n ->
                   sql_eqb n s = false).
Proof.
  unfold Sql.name_matches. split.
  - intros H p n Hp En. specialize (H p Hp). now rewrite En in H.
  - intros H p Hp. destruct (p_name p) as [n|] eqn:En; [eauto | reflexivity].
Qed.

Lemma join_all_references db :
  referential_integrity db ->
  map Sql.j_ref (Sql.join_all db) = reference_tbl db.
Proof.
  unfold referential_integrity, Sql.join_all.
  induction 1 as [|pr l (Hp & Hd & Hm) _ IH]; cbn; [reflexivity|].
  destruct (join_one_single db pr Hp Hd Hm) as (p & d & m & -> & _).
  cbn. now rewrite IH.
Qed.

Lemma rejected_iff_internal q msg P w (answer : list Reply) (r : bool) :
  lookup_outcome q msg P w ->
  replies w = (if r then [Err INTERNAL "Database error"] else answer) ->
  answer <> [Err INTERNAL "Database error"] ->
  (r = true <-> failures w <> []).
Proof.
  intros (Hint & _) E Hne. rewrite <- Hint, E.
  destruct r; split; intros; congruence.
Qed.

(** C6.  GetPatient, GetPrescription and GetReference call back once.
    The answer is INTERNAL exactly when the connection or the query
    rejects, NOT_FOUND exactly when neither does and no row matches,
    and a value otherwise; no other status occurs.  No row matches
    when no patient row has a name equal to the given one; when no
    prescription_reference row with the given number joins a patient,
    a doctor and a medicine row (under referential integrity: when no
    prescription_reference row has the number); when no reference
    number matches the pattern.  CONNECT and the query are each
    attempted at most once and nothing follows a rejection. *)
Theorem lookups_answer_not_found_or_internal v db faults s :
  lookup_outcome SELECT_PATIENT "Patient not found"
    (forall p n, In p (patient_tbl db) -> p_name p = Some n ->
                 sql_eqb n s = false)
    (snd (GetPatient_of v s (arrive db faults)))
  /\ lookup_outcome SELECT_PRESCRIPTION "Prescription not found"
       (forall pr p d m,
           In pr (reference_tbl db) -> In p (patient_tbl db) ->
           In d (doctor_tbl db) -> In m (medicine_tbl db) ->
           p_id p = patient_id pr -> d_id d = doctor_id pr ->
           m_id m = medicine_id pr ->
           sql_eqb (reference_number pr) s = false)
       (snd (GetPrescription_of v s (arrive db faults)))
  /\ lookup_outcome SELECT_REFERENCE "No reference found"
       (forall pr, In pr (reference_tbl db) ->
                   sql_like ("%" ++ s ++ "%") (reference_number pr) = false)
       (snd (GetReference_of v s (arrive db faults)))
  /\ (referential_integrity db ->
      lookup_outcome SELECT_PRESCRIPTION "Prescription not found"
        (forall pr, In pr (reference_tbl db) ->
                    sql_eqb (reference_number pr) s = false)
        (snd (GetPrescription_of v s (arrive db faults))))
  /\ (rejects 2 faults = true
      <-> failures (snd (GetPatient_of v s (arrive db faults))) <> [])
  /\ (rejects 2 faults = true
      <-> failures (snd (GetPrescription_of v s (arrive db faults))) <> [])
  /\ (rejects 2 faults = true
      <-> failures (snd (GetReference_of v s (arrive db faults))) <> []).
Proof.
  assert (Hp : lookup_outcome SELECT_PATIENT "Patient not found"
                 (Sql.select_patient s db = [])
                 (snd (GetPatient_of v s (arrive db faults))))
    by apply GetPatient_outcome.
  assert (Hx : lookup_outcome SELECT_PRESCRIPTION "Prescription not found"
                 (Sql.select_prescription s db = [])
                 (snd (GetPrescription_of v s (arrive db faults))))
    by apply GetPrescription_outcome.
  assert (Hr : lookup_outcome SELECT_REFERENCE "No reference found"
                 (Sql.select_reference ("%" ++ s ++ "%") db = [])
                 (snd (GetReference_of v s (arrive db faults))))
    by apply GetReference_outcome.
  assert (Hj : Sql.select_prescription s db = []
               <-> forall j, In j (Sql.join_all db) ->
                     sql_eqb (reference_number (Sql.j_ref j)) s = false)
    by (unfold Sql.select_prescription; apply filter_nil_iff).
  split; [|split; [|split; [|split; [|split; [|split]]]]].
  - eapply lookup_outcome_iff; [|exact Hp].
    unfold Sql.select_patient. rewrite filter_nil_iff.
    apply no_patient_has_name.
  - eapply lookup_outcome_iff; [|exact Hx].
    rewrite Hj. apply no_joined_row_matches.
  - eapply lookup_outcome_iff; [|exact Hr].
    unfold Sql.select_reference.
    rewrite <- (filter_nil_iff (fun pr => sql_like ("%" ++ s ++ "%")
                                            (reference_number pr))).
    split; [apply map_eq_nil | intros ->; reflexivity].
  - intros Hri. eapply lookup_outcome_iff; [|exact Hx].
    rewrite Hj. now apply join_matches_references.
  - eapply rejected_iff_internal; [exact Hp | apply GetPatient_answers |].
    destruct (Sql.select_patient s db); discriminate.
  - eapply rejected_iff_internal; [exact Hx | apply GetPrescription_answers |].
    destruct (Sql.select_prescription s db); discriminate.
  - eapply rejected_iff_internal; [exact Hr | apply GetReference_answers |].
    destruct (Sql.select_reference _ db); discriminate.
Qed.

End Rows.

Section PageClaim.
Context {C : Collation}.

(** C8.  GetAllPatients serves the page it is given, and page 1 when
    the page is missing (or 0), with the pageSize it is given, and 10
    when the pageSize is missing (or 0).  A list it returns is the
    join of the four tables ordered by reference_number, without its
    first (page - 1) * pageSize rows and cut after pageSize rows; every
    row carries as totalCount the number of prescription_reference
    rows and as totalPages the ceiling of totalCount / pageSize, which
    is also returned beside the list.  The join holds exactly the
    prescription_reference rows combined with the patient, doctor and
    medicine rows of their ids (under referential integrity one
    combination per reference), and its ordering is a sorted
    rearrangement of it.  A list is returned whenever no database
    operation rejects and offset and pageSize are accepted as
    parameters. *)
Theorem GetAllPatients_page db faults page pageSize p ps :
  (page = Some p /\ p <> 0) \/ ((page = None \/ page = Some 0) /\ p = 1) ->
  (pageSize = Some ps /\ ps <> 0)
  \/ ((pageSize = None \/ pageSize = Some 0) /\ ps = 10) ->
  let w := snd (Service.GetAllPatients page pageSize (arrive db faults)) in
  let offset := (p - 1) * ps in
  let totalCount := Z.of_nat (List.length (reference_tbl db)) in
  (forall rows tp,
      In (Ok (Patients rows tp)) (replies w) ->
      exists totalPages,
        tp = Some totalPages
        /\ (totalPages - 1) * ps < totalCount <= totalPages * ps
        /\ 0 <= offset /\ 1 <= ps
        /\ rows = map (page_row totalCount totalPages)
                      (firstn (Z.to_nat ps)
                         (skipn (Z.to_nat offset)
                            (Sql.order_by_ref (Sql.join_all db))))
        /\ Z.of_nat (List.length rows) <= ps
        /\ Forall (fun r => pd_totalCount r = totalCount
                            /\ pd_totalPages r = totalPages) rows)
  /\ (forall pr pt d m,
         In (Sql.mkJoined pr pt d m) (Sql.join_all db)
         <-> In pr (reference_tbl db) /\ In pt (patient_tbl db)
             /\ In d (doctor_tbl db) /\ In m (medicine_tbl db)
             /\ p_id pt = patient_id pr /\ d_id d = doctor_id pr
             /\ m_id m = medicine_id pr)
  /\ (referential_integrity db ->
      map Sql.j_ref (Sql.join_all db) = reference_tbl db)
  /\ Permutation (Sql.order_by_ref (Sql.join_all db)) (Sql.join_all db)
  /\ ((forall a b, sql_leb a b = true \/ sql_leb b a = true) ->
      ordered_by_ref (Sql.order_by_ref (Sql.join_all db)))
  /\ (fault_free faults = true ->
      0 <= offset <= 2147483647 ->
      1 <= ps <= 2147483647 ->
      exists rows tp, replies w = [Ok (Patients rows tp)]).
Proof.
  intros Hpage Hsize w offset totalCount.
  split; [|split; [apply in_join_all|split; [apply join_all_references|
    split; [apply order_by_ref_perm|
    split; [intros; now apply order_by_ref_sorted|]]]]].
  - subst w. unfold Service.GetAllPatients, Service.page_query.
    rewrite (num_or_given Hpage), (num_or_given Hsize). fold offset.
    intros rows tp.
    destruct (Service.page_params_ok offset ps) eqn:Hok.
    + apply page_params_ok_spec in Hok.
      run_handler; cbn [In]; intros [E|[]]; try discriminate.
      all: inversion E; subst rows tp; clear E.
      all: exists (Service.ceil_div totalCount ps).
      all: split; [reflexivity|].
      all: split; [apply ceil_div_spec; lia|].
      all: split; [lia|]; split; [lia|].
      all: split; [reflexivity|].
      all: split;
        [ unfold Sql.select_page; rewrite length_map, length_firstn; lia
        | apply Forall_forall; intros r Hr; apply in_map_iff in Hr;
          destruct Hr as (j & <- & _); now split ].
    + run_handler; cbn [In]; intros [E|[]]; discriminate.
  - subst w. unfold Service.GetAllPatients, Service.page_query.
    rewrite (num_or_given Hpage), (num_or_given Hsize). fold offset.
    intros Hff Ho Hp.
    assert (Hok : Service.page_params_ok offset ps = true)
      by (apply page_params_ok_spec; lia).
    rewrite Hok. revert Hff.
    run_handler; cbn [fault_free forallb andb]; try discriminate; eauto.
Qed.

Variable paged : Z -> Z -> DB -> list PatientWithDetails.

(** X5.  GetAllPatients of [src/grpc/server.js] calls GetPatientsPaged
    with the page it is given, 1 when missing (or 0), and the pageSize
    it is given, 10 when missing (or 0).  When the connection and the
    call succeed it answers with one row per row of the record set,
    holding its reference_number, name, age, gender, contact,
    doctor_name, medicine_name, totalCount and totalPages and no
    description; otherwise with an INTERNAL error whose message ends
    with the message of the operation that rejected. *)
Theorem Server_GetAllPatients_answers db faults page pageSize p ps :
  (page = Some p /\ p <> 0) \/ ((page = None \/ page = Some 0) /\ p = 1) ->
  (pageSize = Some ps /\ ps <> 0)
  \/ ((pageSize = None \/ pageSize = Some 0) /\ ps = 10) ->
  answers (Server.GetAllPatients paged page pageSize) db faults
  = match first_error (firstn 2 faults) with
    | Some err => [Err INTERNAL ("Database error: " ++ err)]
    | None =>
        [Ok (Patients
               (map (fun row =>
                       mkPatientWithDetails
                         (pd_reference_number row) (pd_name row) (pd_age row)
                         (pd_gender row) (pd_contact row) (pd_doctor_name row)
                         (pd_medicine_name row) None
                         (pd_totalCount row) (pd_totalPages row))
                    (paged p ps db))
               None)]
    end.
Proof.
  intros Hpage Hsize.
  unfold answers, Server.GetAllPatients.
  rewrite (num_or_given Hpage), (num_or_given Hsize).
  run_handler; try reflexivity.
  all: destruct faults as [|[?|] ?]; reflexivity.
Qed.

End PageClaim.

Lemma lookups_answer_not_found_or_internal_witness :
  (exists value,
      replies (snd (Service.GetPatient "Ann" (arrive clinic_db [])))
      = [Ok value])
  /\ replies (snd (Service.GetPatient "Zed" (arrive clinic_db [])))
     = [Err NOT_FOUND "Patient not found"]
  /\ replies (snd (Server.GetPrescription "R9" (arrive clinic_db [])))
     = [Err NOT_FOUND "Prescription not found"]
  /\ replies (snd (Service.GetReference "R"
                     (arrive clinic_db [None; Some "timeout"])))
     = [Err INTERNAL "Database error"]
  /\ (exists value,
        replies (snd (Service.GetPrescription "R2" (arrive clinic_db [])))
        = [Ok value])
  /\ (exists value,
        replies (snd (Server.GetReference "R" (arrive clinic_db [])))
        = [Ok value]).
Proof.
  split; [|split; [|split; [|split; [|split]]]].
  - destruct (@lookups_answer_not_found_or_internal binary_collation
                WithDescription clinic_db [] "Ann")
      as ((_ & _ & Hok & _) & _).
    apply Hok. split; [reflexivity|].
    intros H.
    specialize (H (mkPatient 1 (Some "Ann") (Some 30) (Some "F") (Some "555"))
                  "Ann" (or_introl eq_refl) eq_refl).
    discriminate H.
  - destruct (@lookups_answer_not_found_or_internal binary_collation
                WithDescription clinic_db [] "Zed")
      as ((_ & Hnf & _) & _).
    apply Hnf. split; [reflexivity|].
    intros p n [<-|[<-|[<-|[]]]] E; inversion E; reflexivity.
  - destruct (@lookups_answer_not_found_or_internal binary_collation
                WithoutDescription clinic_db [] "R9")
      as (_ & _ & _ & Hri & _).
    destruct (Hri clinic_db_integrity) as (_ & Hnf & _).
    apply Hnf. split; [reflexivity|].
    intros pr [<-|[<-|[<-|[]]]]; reflexivity.
  - destruct (@lookups_answer_not_found_or_internal binary_collation
                WithDescription clinic_db [None; Some "timeout"] "R")
      as (_ & _ & (Hint & _) & _ & _ & _ & Hrej).
    apply Hint. apply Hrej. reflexivity.
  - destruct (@lookups_answer_not_found_or_internal binary_collation
                WithDescription clinic_db [] "R2")
      as (_ & (_ & _ & Hok & _) & _).
    apply Hok. split; [reflexivity|].
    intros H.
    assert (E : sql_eqb (reference_number (mkReference "R2" 2 8 10)) "R2" = false).
    { apply (H (mkReference "R2" 2 8 10)
               (mkPatient 2 (Some "Ann") (Some 41) (Some "F") None)
               (mkDoctor 8 (Some "Dr No"))
               (mkMedicine 10 (Some "Zinc") None));
        cbn; auto. }
    discriminate E.
  - destruct (@lookups_answer_not_found_or_internal binary_collation
                WithoutDescription clinic_db [] "R")
      as (_ & _ & (_ & _ & Hok & _) & _).
    apply Hok. split; [reflexivity|].
    intros H.
    specialize (H (mkReference "R1" 1 7 9) (or_introl eq_refl)).
    discriminate H.
Defined.

Lemma GetAllPatients_page_witness :
  replies (snd (Service.GetAllPatients (Some 2) (Some 2) (arrive clinic_db [])))
  = [Ok (Patients
           [mkPatientWithDetails "R3" (Some "Carl") None (Some "M") (Some "777")
              (Some "Dr Who") (Some "Aspirin") (Some "pain relief") 3 2]
           (Some 2))].
Proof.
  destruct (@GetAllPatients_page binary_collation clinic_db [] (Some 2) (Some 2)
              2 2)
    as (Hrows & _ & _ & _ & _ & Hret).
  - left. split; [reflexivity | lia].
  - left. split; [reflexivity | lia].
  - destruct Hret as (rows & tp & Hrep); [reflexivity | lia | lia |].
    destruct (Hrows rows tp) as (T & -> & HT & _ & _ & -> & _).
    { rewrite Hrep. now left. }
    cbn in HT. assert (T = 2) by lia. subst T.
    rewrite Hrep. reflexivity.
Defined.

Lemma Server_GetAllPatients_answers_witness :
  answers (Server.GetAllPatients echo_procedure (Some 3) None) clinic_db []
  = [Ok (Patients
           [mkPatientWithDetails "row" (Some "Ann") (Some 3) None None None
              None None 10 1]
           None)].
Proof.
  apply (@Server_GetAllPatients_answers echo_procedure
           clinic_db [] (Some 3) None 3 10).
  - left. split; [reflexivity | lia].
  - right. split; [now left | reflexivity].
Defined.
